(** * Appointment lifecycle, reminder dispatch and notification queue

    A shallow embedding of the appointment subsystem of [src/index.tsx]:
    the mock backend [apiService] (browser storage as the record store),
    the reminder and notification handlers of the [App] component, and the
    booking wizard [SchedulingPage].

    Conventions of the embedding.
    - JavaScript numbers that hold identifiers and timestamps are integers
      ([Z]); [Date.now()] and [new Date()] are an explicit argument [now],
      in milliseconds.
    - [localStorage] holds one key, ['users'], whose value is the JSON text of
      an object from mobile numbers to user records; [JSON.parse] after
      [JSON.stringify] is the identity on the records below, so the key is
      modelled by the decoded object, [None] when the key is absent.
    - [sessionStorage] is a finite map from keys to strings.
    - An [async] function is run atomically from its resumption after the
      simulated delay; a rejected promise is the completion [Throw]. *)

From stdpp Require Import base option list strings gmap pretty.
From Stdlib Require Import ZArith Lia Ascii String.

Local Open Scope string_scope.
Local Open Scope list_scope.
Local Open Scope Z_scope.

(** ** JavaScript values *)

Module JS.

(** Completion of a call: a returned value, or an exception thrown out of
    it (a rejected promise, for an async function). *)
Inductive Completion (A : Type) : Type :=
| Return (a : A)
| Throw.
Arguments Return {A} a.
Arguments Throw {A}.

(** Truthiness of [string | null], as used by [!x], [x || y] and [if (x)]:
    [null] and the empty string are falsy. *)
Definition truthy (v : option string) : bool :=
  match v with
  | None => false
  | Some s => negb (String.eqb s "")
  end.

(** [Array.prototype.find]: the first element satisfying the callback. *)
Fixpoint find {A} (p : A → bool) (l : list A) : option A :=
  match l with
  | [] => None
  | x :: l' => if p x then Some x else find p l'
  end.

(** [Array.prototype.findIndex]: the index of the first element satisfying
    the callback, [-1] when there is none. *)
Fixpoint findIndex_from {A} (p : A → bool) (l : list A) (i : Z) : Z :=
  match l with
  | [] => -1
  | x :: l' => if p x then i else findIndex_from p l' (i + 1)
  end.

Definition findIndex {A} (p : A → bool) (l : list A) : Z :=
  findIndex_from p l 0.

(** [Array.prototype.filter]. *)
Definition filter {A} (p : A → bool) (l : list A) : list A :=
  List.filter p l.

(** Replacement of one character by another on every occurrence, the
    effect of [s.replace(/c/g, d)] for a single-character pattern. *)
Fixpoint replace_all (c d : ascii) (s : string) : string :=
  match s with
  | EmptyString => EmptyString
  | String x s' =>
      String (if Ascii.eqb x c then d else x) (replace_all c d s')
  end.

(** A field that holds a number in one record and the text of a form input
    in another. *)
Inductive NumberOrString : Type :=
| Num (n : Z)
| Str (s : string).

(** Template-literal conversion of an integer number. *)
Definition number_to_string (n : Z) : string := pretty n.

End JS.

Import JS.

(** ** Data model (TYPE DEFINITIONS of the source) *)

Inductive Status : Type := upcoming | confirmed | completed.

Global Instance Status_eq_dec : EqDecision Status.
Proof. solve_decision. Defined.

Module Therapy.
Record t : Type := mk { name : string; duration : Z; image : string }.
End Therapy.

Module Appointment.
(** [interface Appointment]; the optional fields are options. *)
Record t : Type := mk {
  id : Z;
  therapies : list Therapy.t;
  date : string;
  time : string;
  bookedAt : string;
  centerRating : option Z;
  status : option Status
}.

Definition with_status (s : Status) (a : t) : t :=
  {| id := id a; therapies := therapies a; date := date a; time := time a;
     bookedAt := bookedAt a; centerRating := centerRating a;
     status := Some s |}.
End Appointment.

Module Draft.
(** The object literal [newAppointment] built by [handleFinishBooking] and
    received by [bookAppointment]. *)
Record t : Type := mk {
  therapies : list Therapy.t;
  date : string;
  time : string;
  bookedAt : string;
  centerRating : Z
}.
End Draft.

Module User.
Record Details : Type := mkDetails {
  name : string; age : NumberOrString; email : string; condition : string
}.
Record MedicalHistory : Type := mkMedicalHistory {
  pastConditions : string; previousTreatments : string; allergies : string
}.
Record Vitals : Type := mkVitals {
  wellnessScore : Z; bloodPressure : string; heartRate : string;
  sleepQuality : string
}.
Record Analytics : Type := mkAnalytics {
  treatmentCompletion : Z; totalSessions : Z; completedSessions : Z;
  remainingSessions : Z; weeklyPerformance : list (string * Z);
  vitals : Vitals
}.
(** A stored user record. [appointments] is optional because the code
    guards against its absence ([!user.appointments],
    [?.appointments || []]). *)
Record t : Type := mk {
  mobileNumber : string;
  password : string;
  details : Details;
  medicalHistory : MedicalHistory;
  appointments : option (list Appointment.t);
  analytics : Analytics
}.

Definition with_appointments (l : list Appointment.t) (u : t) : t :=
  {| mobileNumber := mobileNumber u; password := password u;
     details := details u; medicalHistory := medicalHistory u;
     appointments := Some l; analytics := analytics u |}.

Definition with_profile (d : Details) (h : MedicalHistory) (u : t) : t :=
  {| mobileNumber := mobileNumber u; password := password u;
     details := d; medicalHistory := h;
     appointments := appointments u; analytics := analytics u |}.
End User.

Module UserData.
(** The form data received by [createAccount]. *)
Record t : Type := mk {
  name : string; age : string; email : string; mobileNumber : string;
  password : string; condition : string; pastConditions : string;
  previousTreatments : string; allergies : string
}.
End UserData.

Module UpdatedDetails.
(** The object received by [updatePatientDetails]. *)
Record t : Type := mk {
  name : string; age : NumberOrString; email : string; condition : string;
  medicalHistory : User.MedicalHistory
}.
End UpdatedDetails.

(** ** Browser storage *)

Module Storage.
Record t : Type := mk {
  (** [localStorage['users']], decoded. *)
  localStorage : option (gmap string User.t);
  sessionStorage : gmap string string
}.

(** [JSON.parse(localStorage.getItem('users') || '{}')] *)
Definition users (st : t) : gmap string User.t :=
  default ∅ (localStorage st).

(** [localStorage.setItem('users', JSON.stringify(users))] *)
Definition put_users (us : gmap string User.t) (st : t) : t :=
  {| localStorage := Some us; sessionStorage := sessionStorage st |}.

(** [sessionStorage.getItem(k)] *)
Definition session_get (k : string) (st : t) : option string :=
  sessionStorage st !! k.

(** [sessionStorage.setItem(k, v)] *)
Definition session_set (k v : string) (st : t) : t :=
  {| localStorage := localStorage st;
     sessionStorage := <[k := v]> (sessionStorage st) |}.

(** [sessionStorage.removeItem(k)] *)
Definition session_remove (k : string) (st : t) : t :=
  {| localStorage := localStorage st;
     sessionStorage := delete k (sessionStorage st) |}.
End Storage.

(** ** Properties every parsed object inherits

    The object [JSON.parse] returns has [Object.prototype] behind it: reading
    one of these keys on it yields a function, or the prototype itself for
    [__proto__], whether or not the stored text holds the key. All of these
    values are truthy. *)

Definition Object_prototype_keys : list string :=
  [ "constructor"; "__defineGetter__"; "__defineSetter__"; "hasOwnProperty";
    "__lookupGetter__"; "__lookupSetter__"; "isPrototypeOf";
    "propertyIsEnumerable"; "toString"; "valueOf"; "__proto__";
    "toLocaleString" ].

Definition inheritedKey (k : string) : bool :=
  bool_decide (k ∈ Object_prototype_keys).

(** ** The mock backend [apiService] *)

Module apiService.
Import Storage.

Definition defaultUser : User.t :=
  {| User.mobileNumber := "1234567890";
     User.password := "password";
     User.details :=
       {| User.name := "Mr Guna"; User.age := Num 45;
          User.email := "mr.guna@example.com";
          User.condition := "Chronic Back Pain" |};
     User.medicalHistory :=
       {| User.pastConditions := "Sciatica, Mild Hypertension";
          User.previousTreatments := "Physical Therapy";
          User.allergies := "None" |};
     User.appointments := Some [];
     User.analytics :=
       {| User.treatmentCompletion := 75; User.totalSessions := 12;
          User.completedSessions := 9; User.remainingSessions := 3;
          User.weeklyPerformance :=
            [("Week 1", 30); ("Week 2", 50); ("Week 3", 40); ("Week 4", 60)];
          User.vitals :=
            {| User.wellnessScore := 82; User.bloodPressure := "120/80";
               User.heartRate := "72 bpm"; User.sleepQuality := "7h 30m" |} |}
  |}.

(** [_initializeDB], run when the script loads. The stored text is absent
    or, as far as this program writes it, the text of an object. *)
Definition _initializeDB (st : Storage.t) : Storage.t :=
  match localStorage st with
  | None => put_users {[ "1234567890" := defaultUser ]} st
  | Some _ => st
  end.

Definition getCurrentUserMobileNumber (st : Storage.t) : option string :=
  session_get "currentUser" st.

Definition logout (st : Storage.t) : Storage.t :=
  session_remove "currentUser" st.

(** [login]: on matching credentials the session's current user is set.
    The returned object is reduced to its [success] flag and the user's
    name and number. *)
Definition login (mobileNumber password : string) (st : Storage.t)
  : option (string * string) * Storage.t :=
  match users st !! mobileNumber with
  | Some user =>
      if String.eqb (User.password user) password
      then (Some (User.name (User.details user), User.mobileNumber user),
            session_set "currentUser" mobileNumber st)
      else (None, st)
  | None => (None, st)
  end.

Definition newUser (userData : UserData.t) : User.t :=
  {| User.mobileNumber := UserData.mobileNumber userData;
     User.password := UserData.password userData;
     User.details :=
       {| User.name := UserData.name userData;
          User.age := Str (UserData.age userData);
          User.email := UserData.email userData;
          User.condition := UserData.condition userData |};
     User.medicalHistory :=
       {| User.pastConditions := UserData.pastConditions userData;
          User.previousTreatments := UserData.previousTreatments userData;
          User.allergies := UserData.allergies userData |};
     User.appointments := Some [];
     User.analytics :=
       {| User.treatmentCompletion := 0; User.totalSessions := 0;
          User.completedSessions := 0; User.remainingSessions := 0;
          User.weeklyPerformance := [];
          User.vitals :=
            {| User.wellnessScore := 70; User.bloodPressure := "N/A";
               User.heartRate := "N/A"; User.sleepQuality := "N/A" |} |}
  |}.

(** [createAccount]: refused when [users[userData.mobileNumber]] is truthy,
    that is when a record is stored under the number or the number is the
    name of an inherited property; otherwise the record is stored and the new
    user becomes the session's current user. *)
Definition createAccount (userData : UserData.t) (st : Storage.t)
  : option (string * string) * Storage.t :=
  match users st !! UserData.mobileNumber userData with
  | Some _ => (None, st)
  | None =>
      if inheritedKey (UserData.mobileNumber userData) then (None, st)
      else
        let u := newUser userData in
        (Some (User.name (User.details u), User.mobileNumber u),
         session_set "currentUser" (UserData.mobileNumber userData)
           (put_users (<[UserData.mobileNumber userData := u]> (users st)) st))
  end.

(** [updatePatientDetails]: assigning to
    [users[mobileNumber].details] throws when the record is missing. *)
Definition updatePatientDetails (updatedDetails : UpdatedDetails.t)
    (st : Storage.t) : Completion bool * Storage.t :=
  if negb (truthy (getCurrentUserMobileNumber st)) then (Return false, st)
  else
    match getCurrentUserMobileNumber st with
    | None => (Return false, st)
    | Some mobileNumber =>
        match users st !! mobileNumber with
        | None => (Throw, st)
        | Some user =>
            let d :=
              {| User.name := UpdatedDetails.name updatedDetails;
                 User.age := UpdatedDetails.age updatedDetails;
                 User.email := UpdatedDetails.email updatedDetails;
                 User.condition := UpdatedDetails.condition updatedDetails |} in
            (Return true,
             put_users
               (<[mobileNumber :=
                    User.with_profile d
                      (UpdatedDetails.medicalHistory updatedDetails) user]>
                  (users st)) st)
        end
    end.

(** [getAppointments]: the current user's list, [[]] when there is no
    current user, no record, or no [appointments] field. A missing current
    user is [!mobileNumber], which also covers the empty string. *)
Definition getAppointments (st : Storage.t) : list Appointment.t :=
  if negb (truthy (getCurrentUserMobileNumber st)) then []
  else
    match getCurrentUserMobileNumber st with
    | None => []
    | Some mobileNumber =>
        match users st !! mobileNumber with
        | Some user => default [] (User.appointments user)
        | None => []
        end
    end.

(** [{...appointment, id: Date.now(), status: 'upcoming'}] *)
Definition newAppointmentWithMeta (appointment : Draft.t) (now : Z)
  : Appointment.t :=
  {| Appointment.id := now;
     Appointment.therapies := Draft.therapies appointment;
     Appointment.date := Draft.date appointment;
     Appointment.time := Draft.time appointment;
     Appointment.bookedAt := Draft.bookedAt appointment;
     Appointment.centerRating := Some (Draft.centerRating appointment);
     Appointment.status := Some upcoming |}.

(** [bookAppointment]. [users[mobileNumber].appointments.push(..)] throws a
    [TypeError] when the record or its [appointments] array is missing. *)
Definition bookAppointment (appointment : Draft.t) (now : Z)
    (st : Storage.t) : Completion bool * Storage.t :=
  if negb (truthy (getCurrentUserMobileNumber st)) then (Return false, st)
  else
    match getCurrentUserMobileNumber st with
    | None => (Return false, st)
    | Some mobileNumber =>
        match users st !! mobileNumber with
        | None => (Throw, st)
        | Some user =>
            match User.appointments user with
            | None => (Throw, st)
            | Some apps =>
                let apps' := apps ++ [newAppointmentWithMeta appointment now] in
                (Return true,
                 put_users
                   (<[mobileNumber := User.with_appointments apps' user]>
                      (users st)) st)
            end
        end
    end.

(** [updateAppointmentStatus]. The parameter type of the source admits
    only ['confirmed'] and ['completed']; the embedding takes any
    [Status]. *)
Definition updateAppointmentStatus (appointmentId : Z) (status : Status)
    (st : Storage.t) : bool * Storage.t :=
  if negb (truthy (getCurrentUserMobileNumber st)) then (false, st)
  else
    match getCurrentUserMobileNumber st with
    | None => (false, st)
    | Some mobileNumber =>
        match users st !! mobileNumber with
        | None => (false, st)
        | Some user =>
            match User.appointments user with
            | None => (false, st)
            | Some apps =>
                let appointmentIndex :=
                  findIndex (λ app, Appointment.id app =? appointmentId) apps in
                if appointmentIndex =? -1 then (false, st)
                else
                  let apps' :=
                    alter (Appointment.with_status status)
                          (Z.to_nat appointmentIndex) apps in
                  (true,
                   put_users
                     (<[mobileNumber := User.with_appointments apps' user]>
                        (users st)) st)
            end
        end
    end.

(** [getPatientDetails]: [null] without a current user; reading
    [user.details] throws when the record is missing. The object returned,
    [{...user.details, medicalHistory: user.medicalHistory}], has the shape
    [updatePatientDetails] receives. *)
Definition getPatientDetails (st : Storage.t)
  : Completion (option UpdatedDetails.t) :=
  if negb (truthy (getCurrentUserMobileNumber st)) then Return None
  else
    match getCurrentUserMobileNumber st with
    | None => Return None
    | Some mobileNumber =>
        match users st !! mobileNumber with
        | None => Throw
        | Some user =>
            Return
              (Some
                 {| UpdatedDetails.name := User.name (User.details user);
                    UpdatedDetails.age := User.age (User.details user);
                    UpdatedDetails.email := User.email (User.details user);
                    UpdatedDetails.condition :=
                      User.condition (User.details user);
                    UpdatedDetails.medicalHistory :=
                      User.medicalHistory user |})
        end
    end.

End apiService.

(** ** Platform functions

    The [Date] constructor applied to a string is the browser's; the source
    only compares its result with the current time. [Date_parse s] is the
    time value of [new Date(s)] in milliseconds, [None] for an invalid date
    (time value [NaN]). [isoDateOfSeptember2025 d] is
    [new Date(2025, 8, d).toISOString().split('T')[0]], which depends on the
    local time zone. *)

Class Platform : Type := {
  Date_parse : string → option Z;
  isoDateOfSeptember2025 : Z → string
}.

(** [d > now] for a parsed date [d] and a valid date [now]: a comparison
    with [NaN] is false. *)
Definition Date_gt (d : option Z) (now : Z) : bool :=
  match d with
  | Some t => now <? t
  | None => false
  end.

Module Page.
Inductive t : Type := Home | Analysis | Schedule | History | Settings | Profile.
Global Instance eq_dec : EqDecision t.
Proof. solve_decision. Defined.
End Page.

Module AuthStatus.
Inductive t : Type := welcome | login | createAccount | loggedIn.
Global Instance eq_dec : EqDecision t.
Proof. solve_decision. Defined.
End AuthStatus.

Module Notification.
Record t : Type := mk { id : Z; message : string }.
End Notification.

Module Timer.
(** A pending [setTimeout] callback of [addNotification]: it is due at
    [due] and removes the notifications whose id is [target]. *)
Record t : Type := mk { due : Z; target : Z }.
End Timer.

(** Observable effects of the handlers, recorded in program order. *)
Inductive Event : Type :=
| EvUpdateAppointmentStatus (appointmentId : Z) (status : Status) (result : bool)
| EvSessionSetItem (key value : string)
| EvAddNotification (n : Notification.t)
| EvNavigate (page : Page.t)
| EvSetReminderAppointment (a : option Appointment.t).

(** ** The [App] component *)

Module App.

(** Component state ([useState] cells), the browser storage, the pending
    timers and the record of effects. The chatbot flag of the source plays
    no part in the handlers below and is left out. *)
Record t : Type := mk {
  storage : Storage.t;
  authStatus : AuthStatus.t;
  currentUser : option (string * string);
  currentPage : Page.t;
  previousPage : Page.t;
  notifications : list Notification.t;
  reminderAppointment : option Appointment.t;
  timers : list Timer.t;
  trace : list Event
}.

(** Initial state of a freshly mounted component over a given storage. *)
Definition init (st : Storage.t) : t :=
  {| storage := st; authStatus := AuthStatus.welcome; currentUser := None;
     currentPage := Page.Home; previousPage := Page.Home;
     notifications := []; reminderAppointment := None; timers := [];
     trace := [] |}.

Definition emit (e : Event) (s : t) : t :=
  {| storage := storage s; authStatus := authStatus s;
     currentUser := currentUser s; currentPage := currentPage s;
     previousPage := previousPage s; notifications := notifications s;
     reminderAppointment := reminderAppointment s; timers := timers s;
     trace := trace s ++ [e] |}.

Definition with_storage (st : Storage.t) (s : t) : t :=
  {| storage := st; authStatus := authStatus s;
     currentUser := currentUser s; currentPage := currentPage s;
     previousPage := previousPage s; notifications := notifications s;
     reminderAppointment := reminderAppointment s; timers := timers s;
     trace := trace s |}.

Definition setNotifications (f : list Notification.t → list Notification.t)
    (s : t) : t :=
  {| storage := storage s; authStatus := authStatus s;
     currentUser := currentUser s; currentPage := currentPage s;
     previousPage := previousPage s; notifications := f (notifications s);
     reminderAppointment := reminderAppointment s; timers := timers s;
     trace := trace s |}.

Definition setTimeout (tm : Timer.t) (s : t) : t :=
  {| storage := storage s; authStatus := authStatus s;
     currentUser := currentUser s; currentPage := currentPage s;
     previousPage := previousPage s; notifications := notifications s;
     reminderAppointment := reminderAppointment s;
     timers := timers s ++ [tm]; trace := trace s |}.

Definition with_timers (tms : list Timer.t) (s : t) : t :=
  {| storage := storage s; authStatus := authStatus s;
     currentUser := currentUser s; currentPage := currentPage s;
     previousPage := previousPage s; notifications := notifications s;
     reminderAppointment := reminderAppointment s;
     timers := tms; trace := trace s |}.

Definition setReminderAppointment (a : option Appointment.t) (s : t) : t :=
  emit (EvSetReminderAppointment a)
    {| storage := storage s; authStatus := authStatus s;
       currentUser := currentUser s; currentPage := currentPage s;
       previousPage := previousPage s; notifications := notifications s;
       reminderAppointment := a; timers := timers s; trace := trace s |}.

Definition setCurrentUser (u : option (string * string)) (s : t) : t :=
  {| storage := storage s; authStatus := authStatus s;
     currentUser := u; currentPage := currentPage s;
     previousPage := previousPage s; notifications := notifications s;
     reminderAppointment := reminderAppointment s; timers := timers s;
     trace := trace s |}.

Definition setAuthStatus (a : AuthStatus.t) (s : t) : t :=
  {| storage := storage s; authStatus := a;
     currentUser := currentUser s; currentPage := currentPage s;
     previousPage := previousPage s; notifications := notifications s;
     reminderAppointment := reminderAppointment s; timers := timers s;
     trace := trace s |}.

Definition setCurrentPage (p : Page.t) (s : t) : t :=
  {| storage := storage s; authStatus := authStatus s;
     currentUser := currentUser s; currentPage := p;
     previousPage := previousPage s; notifications := notifications s;
     reminderAppointment := reminderAppointment s; timers := timers s;
     trace := trace s |}.

Definition setPreviousPage (p : Page.t) (s : t) : t :=
  {| storage := storage s; authStatus := authStatus s;
     currentUser := currentUser s; currentPage := currentPage s;
     previousPage := p; notifications := notifications s;
     reminderAppointment := reminderAppointment s; timers := timers s;
     trace := trace s |}.

(** [sessionStorage.setItem] called from a handler. *)
Definition sessionSetItem (k v : string) (s : t) : t :=
  emit (EvSessionSetItem k v)
    (with_storage (Storage.session_set k v (storage s)) s).

(** The key [`reminded_${id}`]. *)
Definition reminded_key (id : Z) : string :=
  String.append "reminded_" (number_to_string id).

Section Reminder.
Context {P : Platform}.

(** The callback given to [appointments.find] in
    [checkUpcomingAppointments]. *)
Definition isUpcomingUnreminded (now : Z) (st : Storage.t)
    (app : Appointment.t) : bool :=
  let appDate :=
    Date_parse (replace_all "-" "/" (Appointment.date app)) in
  let reminded :=
    Storage.session_get (reminded_key (Appointment.id app)) st in
  bool_decide (Appointment.status app = Some upcoming)
  && Date_gt appDate now
  && negb (truthy reminded).

(** The appointment found by [checkUpcomingAppointments], the value of
    its local [upcoming]. *)
Definition selectReminder (now : Z) (st : Storage.t)
  : option Appointment.t :=
  find (isUpcomingUnreminded now st) (apiService.getAppointments st).

(** [checkUpcomingAppointments]: the reminder is set when an appointment
    was found and left as it is otherwise. *)
Definition checkUpcomingAppointments (now : Z) (s : t) : t :=
  match selectReminder now (storage s) with
  | Some found => setReminderAppointment (Some found) s
  | None => s
  end.

(** The effect on [authStatus]. *)
Definition authStatusEffect (now : Z) (s : t) : t :=
  if bool_decide (authStatus s = AuthStatus.loggedIn)
  then checkUpcomingAppointments now s
  else s.

(** [handleLoginSuccess], followed by the effect its change of
    [authStatus] triggers. *)
Definition handleLoginSuccess (user : string * string) (now : Z)
    (s : t) : t :=
  let s1 := setAuthStatus AuthStatus.loggedIn (setCurrentUser (Some user) s) in
  if bool_decide (authStatus s = AuthStatus.loggedIn) then s1
  else authStatusEffect now s1.
End Reminder.

(** The timer callback of [addNotification]:
    [setNotifications(prev => prev.filter(n => n.id !== id))]. *)
Definition expire (id : Z) (s : t) : t :=
  setNotifications
    (filter (λ n, negb (Notification.id n =? id))) s.

(** [addNotification]; [now] is the clock reading, which gives the id and
    from which the 3000 ms of the timer are counted. *)
Definition addNotification (now : Z) (message : string) (s : t) : t :=
  let id := now in
  let n := {| Notification.id := id; Notification.message := message |} in
  let s1 := emit (EvAddNotification n) (setNotifications (λ prev, prev ++ [n]) s) in
  setTimeout {| Timer.due := now + 3000; Timer.target := id |} s1.

(** A timer may run once the clock has reached its due time, not before. *)
Definition isDue (now : Z) (tm : Timer.t) : bool := Timer.due tm <=? now.

(** The event loop at clock reading [now]: every pending timer that is due
    runs its callback, in the order of registration, and is discharged. *)
Definition runTimers (now : Z) (s : t) : t :=
  let due := List.filter (isDue now) (timers s) in
  let pending := List.filter (λ tm, negb (isDue now tm)) (timers s) in
  fold_left (λ acc tm, expire (Timer.target tm) acc) due
            (with_timers pending s).

Definition handleNavigate (page : Page.t) (s : t) : t :=
  if bool_decide (page ≠ currentPage s)
  then emit (EvNavigate page)
         (setCurrentPage page (setPreviousPage (currentPage s) s))
  else s.

Definition handleSosClick (now : Z) (s : t) : t :=
  addNotification now "SOS Alert Sent! A practitioner has been notified." s.

Definition handleConfirmReminder (now : Z) (s : t) : t :=
  match reminderAppointment s with
  | None => s
  | Some r =>
      let '(result, st) :=
        apiService.updateAppointmentStatus (Appointment.id r) confirmed
          (storage s) in
      let s1 :=
        emit (EvUpdateAppointmentStatus (Appointment.id r) confirmed result)
             (with_storage st s) in
      let s2 := sessionSetItem (reminded_key (Appointment.id r)) "true" s1 in
      let s3 := addNotification now "Appointment Confirmed!" s2 in
      setReminderAppointment None s3
  end.

Definition handleRescheduleReminder (s : t) : t :=
  match reminderAppointment s with
  | None => s
  | Some r =>
      let s1 := sessionSetItem (reminded_key (Appointment.id r)) "true" s in
      let s2 := handleNavigate Page.Schedule s1 in
      setReminderAppointment None s2
  end.

Definition handleDismissReminder (s : t) : t :=
  match reminderAppointment s with
  | None => s
  | Some r =>
      let s1 := sessionSetItem (reminded_key (Appointment.id r)) "true" s in
      setReminderAppointment None s1
  end.

Definition handleNavigateBack (s : t) : t :=
  setCurrentPage (previousPage s) s.

(** The callback [onBookingComplete] given to [SchedulingPage]. *)
Definition onBookingComplete (now : Z) (s : t) : t :=
  setCurrentPage Page.History
    (addNotification now "Appointment booked successfully!" s).

Section CreateSuccess.
Context {P : Platform}.

(** [handleCreateSuccess], followed by the effect its change of
    [authStatus] triggers. *)
Definition handleCreateSuccess (user : string * string) (now : Z)
    (s : t) : t :=
  let s1 :=
    addNotification now
      (String.append "Welcome, " (String.append user.1 "!")) s in
  let s2 := setAuthStatus AuthStatus.loggedIn (setCurrentUser (Some user) s1) in
  if bool_decide (authStatus s = AuthStatus.loggedIn) then s2
  else authStatusEffect now s2.
End CreateSuccess.

End App.

(** ** The booking wizard [SchedulingPage] *)

Definition ALL_THERAPIES : list Therapy.t :=
  [ {| Therapy.name := "KARAMA"; Therapy.duration := 45;
       Therapy.image := "https://img.freepik.com/free-photo/ayurveda-spa-treatment-still-life_23-2150910087.jpg" |};
    {| Therapy.name := "ENEMA"; Therapy.duration := 60;
       Therapy.image := "https://img.freepik.com/free-photo/beautiful-spa-composition-wooden-background_1150-19253.jpg" |};
    {| Therapy.name := "VIRECHANA"; Therapy.duration := 40;
       Therapy.image := "https://img.freepik.com/free-photo/spa-treatment-with-herbal-compress-balls-rose-petals-oil_1150-13793.jpg" |};
    {| Therapy.name := "VAMANA"; Therapy.duration := 25;
       Therapy.image := "https://img.freepik.com/free-photo/ayurveda-spa-treatment-still-life_23-2150910085.jpg" |};
    {| Therapy.name := "BASTI"; Therapy.duration := 50;
       Therapy.image := "https://img.freepik.com/free-photo/natural-ayurvedic-medicine-still-life_23-2150910129.jpg" |};
    {| Therapy.name := "VASTI"; Therapy.duration := 55;
       Therapy.image := "https://img.freepik.com/free-photo/ayurveda-spa-treatment-still-life_23-2150910091.jpg" |} ].

Definition TIME_SLOTS : list string :=
  ["8:00am"; "10:00am"; "12:00pm"; "1:00pm"; "3:00pm"; "5:00pm"].

Module SchedulingPage.

(** The [useState] cells of the page. *)
Record t : Type := mk {
  step : Z;
  selectedTherapies : list Therapy.t;
  selectedDate : string;
  selectedTime : string;
  centerRating : Z;
  showConfirmation : bool;
  isBooking : bool
}.

Definition init : t :=
  {| step := 1; selectedTherapies := []; selectedDate := "";
     selectedTime := ""; centerRating := 0; showConfirmation := false;
     isBooking := false |}.

(** What the page does to its surroundings, in program order. *)
Inductive Effect : Type :=
| EffAlert (message : string)
| EffBookAppointment (appointment : Draft.t) (result : Completion bool)
| EffBookingComplete.

(** The page, the storage behind [apiService], and the effects so far. *)
Record World : Type := mkWorld {
  page : t;
  storage : Storage.t;
  effects : list Effect
}.

Definition start (st : Storage.t) : World :=
  {| page := init; storage := st; effects := [] |}.

Definition setStep (n : Z) (p : t) : t :=
  {| step := n; selectedTherapies := selectedTherapies p;
     selectedDate := selectedDate p; selectedTime := selectedTime p;
     centerRating := centerRating p; showConfirmation := showConfirmation p;
     isBooking := isBooking p |}.

Definition setSelectedTherapies (f : list Therapy.t → list Therapy.t)
    (p : t) : t :=
  {| step := step p; selectedTherapies := f (selectedTherapies p);
     selectedDate := selectedDate p; selectedTime := selectedTime p;
     centerRating := centerRating p; showConfirmation := showConfirmation p;
     isBooking := isBooking p |}.

Definition setSelectedDate (d : string) (p : t) : t :=
  {| step := step p; selectedTherapies := selectedTherapies p;
     selectedDate := d; selectedTime := selectedTime p;
     centerRating := centerRating p; showConfirmation := showConfirmation p;
     isBooking := isBooking p |}.

Definition setSelectedTime (tm : string) (p : t) : t :=
  {| step := step p; selectedTherapies := selectedTherapies p;
     selectedDate := selectedDate p; selectedTime := tm;
     centerRating := centerRating p; showConfirmation := showConfirmation p;
     isBooking := isBooking p |}.

Definition setCenterRating (r : Z) (p : t) : t :=
  {| step := step p; selectedTherapies := selectedTherapies p;
     selectedDate := selectedDate p; selectedTime := selectedTime p;
     centerRating := r; showConfirmation := showConfirmation p;
     isBooking := isBooking p |}.

Definition setShowConfirmation (b : bool) (p : t) : t :=
  {| step := step p; selectedTherapies := selectedTherapies p;
     selectedDate := selectedDate p; selectedTime := selectedTime p;
     centerRating := centerRating p; showConfirmation := b;
     isBooking := isBooking p |}.

Definition setIsBooking (b : bool) (p : t) : t :=
  {| step := step p; selectedTherapies := selectedTherapies p;
     selectedDate := selectedDate p; selectedTime := selectedTime p;
     centerRating := centerRating p; showConfirmation := showConfirmation p;
     isBooking := b |}.

Definition on_page (f : t → t) (w : World) : World :=
  {| page := f (page w); storage := storage w; effects := effects w |}.

Definition effect (e : Effect) (w : World) : World :=
  {| page := page w; storage := storage w; effects := effects w ++ [e] |}.

Definition with_storage (st : Storage.t) (w : World) : World :=
  {| page := page w; storage := st; effects := effects w |}.

Definition sameName (a b : Therapy.t) : bool :=
  String.eqb (Therapy.name a) (Therapy.name b).

Definition toggleTherapy (therapy : Therapy.t) (p : t) : t :=
  setSelectedTherapies
    (λ prev,
       match find (λ x, sameName x therapy) prev with
       | Some _ => filter (λ x, negb (sameName x therapy)) prev
       | None => prev ++ [therapy]
       end) p.

Definition handleNextStep (p : t) : t :=
  if (step p =? 1) && (0 <? Z.of_nat (List.length (selectedTherapies p)))
  then setStep 2 p
  else p.

Definition handleBookNow (w : World) : World :=
  if truthy (Some (selectedDate (page w)))
     && truthy (Some (selectedTime (page w)))
  then on_page (setShowConfirmation true) w
  else effect (EffAlert "Please select a date and time.") w.

Definition handleConfirmBooking (p : t) : t :=
  setStep 3 (setShowConfirmation false p).

(** [handleFinishBooking]; [bookedAt] is the text of
    [new Date().toISOString()] and [now] the clock read by
    [bookAppointment]. When the call throws, the handler stops there. *)
Definition handleFinishBooking (bookedAt : string) (now : Z) (w : World)
  : World :=
  let w1 := on_page (setIsBooking true) w in
  let newAppointment :=
    {| Draft.therapies := selectedTherapies (page w);
       Draft.date := selectedDate (page w);
       Draft.time := selectedTime (page w);
       Draft.bookedAt := bookedAt;
       Draft.centerRating := centerRating (page w) |} in
  let '(success, st) :=
    apiService.bookAppointment newAppointment now (storage w1) in
  let w2 :=
    effect (EffBookAppointment newAppointment success) (with_storage st w1) in
  match success with
  | Throw => w2
  | Return true => on_page (setIsBooking false) (effect EffBookingComplete w2)
  | Return false =>
      on_page (setIsBooking false)
        (effect (EffAlert "Failed to book appointment.") w2)
  end.

(** Clicks on the widgets of the page. *)
Inductive Click : Type :=
| TherapyCard (i : nat)
| NextButton
| CalendarDay (i : nat)
| TimeSlot (i : nat)
| BookNowButton
| ModalCancel
| ModalConfirm
| Star (i : nat)
| FinishButton (bookedAt : string) (now : Z).

Section Render.
Context {P : Platform}.

Definition handleDateSelect (day : Z) (p : t) : t :=
  setSelectedDate (isoDateOfSeptember2025 day) p.

(** What [renderStep] and the modal put on screen decides which handler
    a click reaches: a widget that is not rendered, or a disabled
    button, receives no click. *)
Definition dispatch (c : Click) (w : World) : World :=
  let p := page w in
  match c with
  | TherapyCard i =>
      match ALL_THERAPIES !! i with
      | Some therapy =>
          if step p =? 1 then on_page (toggleTherapy therapy) w else w
      | None => w
      end
  | NextButton =>
      if (step p =? 1)
         && negb (Z.of_nat (List.length (selectedTherapies p)) =? 0)
      then on_page handleNextStep w else w
  | CalendarDay i =>
      if (step p =? 2) && bool_decide (i < 30)%nat
      then on_page (handleDateSelect (Z.of_nat i + 1)) w else w
  | TimeSlot i =>
      match TIME_SLOTS !! i with
      | Some tm =>
          if step p =? 2 then on_page (setSelectedTime tm) w else w
      | None => w
      end
  | BookNowButton =>
      if (step p =? 2)
         && negb (negb (truthy (Some (selectedDate p)))
                  || negb (truthy (Some (selectedTime p))))
      then handleBookNow w else w
  | ModalCancel =>
      if showConfirmation p
      then on_page (setShowConfirmation false) w else w
  | ModalConfirm =>
      if showConfirmation p then on_page handleConfirmBooking w else w
  | Star i =>
      if (step p =? 3) && bool_decide (i < 5)%nat
      then on_page (setCenterRating (Z.of_nat i + 1)) w else w
  | FinishButton bookedAt now =>
      if (step p =? 3) && negb (isBooking p || (centerRating p =? 0))
      then handleFinishBooking bookedAt now w else w
  end.

Definition run (cs : list Click) (w : World) : World :=
  fold_left (λ acc c, dispatch c acc) cs w.
End Render.

End SchedulingPage.

(** ** A reference platform

    The browser functions for the UTC time zone and dates written
    [Y/M/D]: used to evaluate the definitions above on concrete inputs. *)

Module UTC.

Definition digit (c : ascii) : option Z :=
  let n := Z.of_nat (nat_of_ascii c) in
  if (48 <=? n) && (n <=? 57) then Some (n - 48) else None.

Fixpoint number_from (s : string) (acc : Z) : option Z :=
  match s with
  | EmptyString => Some acc
  | String c s' =>
      match digit c with
      | Some d => number_from s' (10 * acc + d)
      | None => None
      end
  end.

Definition number (s : string) : option Z :=
  match s with
  | EmptyString => None
  | _ => number_from s 0
  end.

Fixpoint split (sep : ascii) (s cur : string) : list string :=
  match s with
  | EmptyString => [cur]
  | String c s' =>
      if Ascii.eqb c sep then cur :: split sep s' EmptyString
      else split sep s' (String.append cur (String c EmptyString))
  end.

(** Days from 1970-01-01 to the civil date [y]-[m]-[d]. *)
Definition days_from_civil (y m d : Z) : Z :=
  let y' := if m <=? 2 then y - 1 else y in
  let era := y' / 400 in
  let yoe := y' - era * 400 in
  let doy := (153 * (if 2 <? m then m - 3 else m + 9) + 2) / 5 + d - 1 in
  let doe := yoe * 365 + yoe / 4 - yoe / 100 + doy in
  era * 146097 + doe - 719468.

Definition parse (s : string) : option Z :=
  match split "/" s EmptyString with
  | [y; m; d] =>
      match number y, number m, number d with
      | Some y, Some m, Some d =>
          if (1 <=? m) && (m <=? 12) && (1 <=? d) && (d <=? 31)
          then Some (days_from_civil y m d * 86400000)
          else None
      | _, _, _ => None
      end
  | _ => None
  end.

Definition isoDate (day : Z) : string :=
  String.append (if day <? 10 then "2025-09-0" else "2025-09-")
                (number_to_string day).

Definition platform : Platform :=
  {| Date_parse := parse; isoDateOfSeptember2025 := isoDate |}.

End UTC.

(** ** The account form [CreateAccountPage] *)

Module CreateAccountPage.

(** The [useState] cells of the page. *)
Record t : Type := mk {
  formData : UserData.t;
  error : string;
  isLoading : bool
}.

Definition init : t :=
  {| formData :=
       {| UserData.name := ""; UserData.age := ""; UserData.email := "";
          UserData.mobileNumber := ""; UserData.password := "";
          UserData.condition := ""; UserData.pastConditions := "";
          UserData.previousTreatments := ""; UserData.allergies := "" |};
     error := ""; isLoading := false |}.

(** The keys of [formData] with their values, in the order [for ... in]
    visits them: the order of the initial object, which [handleChange]
    keeps. *)
Definition entries (d : UserData.t) : list (string * string) :=
  [ ("name", UserData.name d); ("age", UserData.age d);
    ("email", UserData.email d); ("mobileNumber", UserData.mobileNumber d);
    ("password", UserData.password d); ("condition", UserData.condition d);
    ("pastConditions", UserData.pastConditions d);
    ("previousTreatments", UserData.previousTreatments d);
    ("allergies", UserData.allergies d) ].

Definition setError (e : string) (p : t) : t :=
  {| formData := formData p; error := e; isLoading := isLoading p |}.

Definition setIsLoading (b : bool) (p : t) : t :=
  {| formData := formData p; error := error p; isLoading := b |}.

(** What [handleCreateAccount] leaves behind: the page, the storage, and the
    user handed to [onCreateSuccess] when the account was created. *)
Record Outcome : Type := mkOutcome {
  page : t;
  storage : Storage.t;
  created : option (string * string)
}.

Section Validation.
(** [String.prototype.trim], the browser's. *)
Variable trim : string → string.

(** The first key whose value is blank, as the validation loop finds it. *)
Definition firstBlank (d : UserData.t) : option string :=
  fst <$> find (λ kv, String.eqb (trim kv.2) "") (entries d).

Definition handleCreateAccount (p : t) (st : Storage.t) : Outcome :=
  match firstBlank (formData p) with
  | Some key =>
      {| page :=
           setError
             (String.append "Please fill out the "
                (String.append key " field.")) p;
         storage := st; created := None |}
  | None =>
      let p1 := setError "" (setIsLoading true p) in
      let '(result, st') := apiService.createAccount (formData p) st in
      match result with
      | Some user =>
          {| page := setIsLoading false p1; storage := st';
             created := Some user |}
      | None =>
          {| page :=
               setIsLoading false
                 (setError "A user with this mobile number already exists." p1);
             storage := st'; created := None |}
      end
  end.
End Validation.

End CreateAccountPage.

(** ** The calendar of the history page, [CalendarView] *)

Module CalendarView.

Section Grouping.
(** [Date.prototype.toDateString] of a parsed date, the browser's: a text
    such as [Tue Sep 16 2025], or [Invalid Date]. *)
Context {P : Platform}.
Variable toDateString : option Z → string.

Definition dateKey (app : Appointment.t) : string :=
  toDateString (Date_parse (replace_all "-" "/" (Appointment.date app))).

(** One step of the [reduce]: the appointment is pushed on the array under
    its key, created empty when missing. *)
Definition addToDate (acc : gmap string (list Appointment.t))
    (app : Appointment.t) : gmap string (list Appointment.t) :=
  <[dateKey app := default [] (acc !! dateKey app) ++ [app]]> acc.

Definition appointmentsByDate (appointments : list Appointment.t)
  : gmap string (list Appointment.t) :=
  fold_left addToDate appointments ∅.

(** [appointmentsByDate[selectedDate.toDateString()] || []] for a selected
    date, [[]] for none. *)
Definition selectedAppointments (appointments : list Appointment.t)
    (selectedDate : option (option Z)) : list Appointment.t :=
  match selectedDate with
  | Some d => default [] (appointmentsByDate appointments !! toDateString d)
  | None => []
  end.
End Grouping.

End CalendarView.

(** ** The handlers of [App] as one transition function *)

Inductive Handler : Type :=
| LoginSuccess (user : string * string) (now : Z)
| CreateSuccess (user : string * string) (now : Z)
| Navigate (page : Page.t)
| NavigateBack
| SosClick (now : Z)
| ConfirmReminder (now : Z)
| RescheduleReminder
| DismissReminder
| BookingComplete (now : Z)
| AddNotification (message : string) (now : Z)
| RunTimers (now : Z).

Section Handlers.
Context {P : Platform}.

(** A call of a handler of the component, of [addNotification] through the
    property given to [ProfilePage], or a run of the event loop. No
    condition of rendering is imposed: a handler may be called in any
    state. *)
Definition perform (h : Handler) (s : App.t) : App.t :=
  match h with
  | LoginSuccess user now => App.handleLoginSuccess user now s
  | CreateSuccess user now => App.handleCreateSuccess user now s
  | Navigate page => App.handleNavigate page s
  | NavigateBack => App.handleNavigateBack s
  | SosClick now => App.handleSosClick now s
  | ConfirmReminder now => App.handleConfirmReminder now s
  | RescheduleReminder => App.handleRescheduleReminder s
  | DismissReminder => App.handleDismissReminder s
  | BookingComplete now => App.onBookingComplete now s
  | AddNotification message now => App.addNotification now message s
  | RunTimers now => App.runTimers now s
  end.

Definition performAll (hs : list Handler) (s : App.t) : App.t :=
  fold_left (λ acc h, perform h acc) hs s.
End Handlers.

(** A handler that logs the user in, the only ones followed by the reminder
    check. *)
Definition entersSession (h : Handler) : bool :=
  match h with
  | LoginSuccess _ _ | CreateSuccess _ _ => true
  | _ => false
  end.

(** ** Vocabulary of the properties *)

Section Vocabulary.
Context {P : Platform}.

(** The time value of an appointment's date, as the reminder check reads
    it. *)
Definition appointmentTime (a : Appointment.t) : option Z :=
  Date_parse (replace_all "-" "/" (Appointment.date a)).

(** The session holds the marker of appointment [id]. *)
Definition markedReminded (st : Storage.t) (id : Z) : Prop :=
  truthy (Storage.session_get (App.reminded_key id) st) = true.

(** The three conditions of the reminder selection. *)
Definition Eligible (now : Z) (st : Storage.t) (a : Appointment.t) : Prop :=
  Appointment.status a = Some upcoming
  ∧ (∃ t, appointmentTime a = Some t ∧ now < t)
  ∧ ¬ markedReminded st (Appointment.id a).

(** [a] is the first element of [l], in list order, satisfying [Q]. *)
Definition FirstSuch {A} (Q : A → Prop) (l : list A) (a : A) : Prop :=
  Q a ∧ ∃ l1 l2, l = l1 ++ a :: l2 ∧ Forall (λ b, ¬ Q b) l1.
End Vocabulary.

(** The three ways a surfaced reminder is resolved. *)
Inductive Resolution : Type :=
| Confirm (now : Z)
| Reschedule
| Dismiss.

Definition resolve (r : Resolution) (s : App.t) : App.t :=
  match r with
  | Confirm now => App.handleConfirmReminder now s
  | Reschedule => App.handleRescheduleReminder s
  | Dismiss => App.handleDismissReminder s
  end.

(** One storage operation of the program: every function of [apiService]
    that writes, and the marker write of the reminder handlers. A session is
    a sequence of such steps over one [sessionStorage]. *)
Inductive session_step : Storage.t → Storage.t → Prop :=
| step_initializeDB st :
    session_step st (apiService._initializeDB st)
| step_login mobileNumber password st :
    session_step st (apiService.login mobileNumber password st).2
| step_createAccount userData st :
    session_step st (apiService.createAccount userData st).2
| step_logout st :
    session_step st (apiService.logout st)
| step_updatePatientDetails updatedDetails st :
    session_step st (apiService.updatePatientDetails updatedDetails st).2
| step_bookAppointment appointment now st :
    session_step st (apiService.bookAppointment appointment now st).2
| step_updateAppointmentStatus appointmentId status st :
    session_step st (apiService.updateAppointmentStatus appointmentId status st).2
| step_markReminded id st :
    session_step st (Storage.session_set (App.reminded_key id) "true" st).

(** The event of setting the marker of [id], and of clearing the reminder. *)
Definition markEvent (id : Z) : Event :=
  EvSessionSetItem (App.reminded_key id) "true".

Definition clearEvent : Event := EvSetReminderAppointment None.

(** In the events [es], the marker of [id] is written before the reminder is
    cleared, and the reminder is not cleared earlier. *)
Definition MarkedBeforeCleared (id : Z) (es : list Event) : Prop :=
  ∃ pre mid post,
    es = pre ++ [markEvent id] ++ mid ++ [clearEvent] ++ post
    ∧ clearEvent ∉ pre.

(** The user's collection holds an appointment with this id. *)
Definition hasAppointment (st : Storage.t) (appointmentId : Z) : Prop :=
  ∃ a, a ∈ apiService.getAppointments st ∧ Appointment.id a = appointmentId.


(** The repository call carries no empty therapies list. *)
Definition bookedWithTherapies (e : SchedulingPage.Effect) : Prop :=
  match e with
  | SchedulingPage.EffBookAppointment d _ => Draft.therapies d ≠ []
  | _ => True
  end.

(** What holds of the booking wizard after any clicks: beyond the first step
    some therapy is selected, the confirmation modal is only open on the
    second step, and every repository call so far carried therapies. *)
Definition wizardInvariant (w : SchedulingPage.World) : Prop :=
  let p := SchedulingPage.page w in
  (SchedulingPage.step p = 1
   ∨ ((SchedulingPage.step p = 2 ∨ SchedulingPage.step p = 3)
      ∧ SchedulingPage.selectedTherapies p ≠ []))
  ∧ (SchedulingPage.showConfirmation p = true → SchedulingPage.step p = 2)
  ∧ Forall bookedWithTherapies (SchedulingPage.effects w).

(** Every queued notification has a pending timer aimed at its id, and every
    pending timer is due 3000 ms after the clock reading that is its
    target. [addNotification] is the only code that queues an entry or
    registers a timer, and it does both. *)
Definition queueInvariant (s : App.t) : Prop :=
  Forall (λ n, Exists (λ tm, Timer.target tm = Notification.id n) (App.timers s))
         (App.notifications s)
  ∧ Forall (λ tm, Timer.due tm = Timer.target tm + 3000) (App.timers s).

(** The queue holds an entry with this id. *)
Definition queued (id : Z) (s : App.t) : Prop :=
  ∃ n, n ∈ App.notifications s ∧ Notification.id n = id.

(** ** Further vocabulary: the wizard's drafts *)

Section WizardVocabulary.
Context {P : Platform}.

(** A date the September calendar of the wizard can produce. *)
Definition calendarDate (d : string) : Prop :=
  ∃ i, (i < 30)%nat ∧ d = isoDateOfSeptember2025 (Z.of_nat i + 1).

(** A therapy selection the first step can produce: from the catalogue, no
    name twice. *)
Definition catalogueSelection (l : list Therapy.t) : Prop :=
  NoDup (Therapy.name <$> l) ∧ Forall (λ th, th ∈ ALL_THERAPIES) l.

(** A draft as the wizard hands it to the repository. *)
Definition completeDraft (d : Draft.t) : Prop :=
  calendarDate (Draft.date d)
  ∧ Draft.time d ∈ TIME_SLOTS
  ∧ 1 ≤ Draft.centerRating d ≤ 5
  ∧ catalogueSelection (Draft.therapies d).

Definition bookedComplete (e : SchedulingPage.Effect) : Prop :=
  match e with
  | SchedulingPage.EffBookAppointment d _ => completeDraft d
  | _ => True
  end.

(** What the cells of the wizard hold after any clicks. *)
Definition wizardCells (w : SchedulingPage.World) : Prop :=
  let p := SchedulingPage.page w in
  (SchedulingPage.selectedDate p = "" ∨ calendarDate (SchedulingPage.selectedDate p))
  ∧ (SchedulingPage.selectedTime p = ""
     ∨ SchedulingPage.selectedTime p ∈ TIME_SLOTS)
  ∧ (SchedulingPage.showConfirmation p = true ∨ SchedulingPage.step p = 3 →
     calendarDate (SchedulingPage.selectedDate p)
     ∧ SchedulingPage.selectedTime p ∈ TIME_SLOTS)
  ∧ 0 ≤ SchedulingPage.centerRating p ≤ 5
  ∧ catalogueSelection (SchedulingPage.selectedTherapies p)
  ∧ Forall bookedComplete (SchedulingPage.effects w).
End WizardVocabulary.

(** ** Sample states

    Concrete records on which the definitions are evaluated. The clock of
    the samples reads midnight of 15 September 2025, UTC. *)

Module Sample.

Definition now : Z := 1757894400000.
Definition tomorrow : string := "2025-09-16".
Definition yesterday : string := "2025-09-14".

Definition karama : Therapy.t :=
  {| Therapy.name := "KARAMA"; Therapy.duration := 45;
     Therapy.image := "https://img.freepik.com/free-photo/ayurveda-spa-treatment-still-life_23-2150910087.jpg" |}.

Definition appointment (id : Z) (date : string) (status : option Status)
  : Appointment.t :=
  {| Appointment.id := id; Appointment.therapies := [karama];
     Appointment.date := date; Appointment.time := "10:00am";
     Appointment.bookedAt := "2025-09-01T08:00:00.000Z";
     Appointment.centerRating := Some 4; Appointment.status := status |}.

Definition draft : Draft.t :=
  {| Draft.therapies := [karama]; Draft.date := tomorrow;
     Draft.time := "10:00am"; Draft.bookedAt := "2025-09-15T00:00:00.000Z";
     Draft.centerRating := 4 |}.

Definition user (apps : list Appointment.t) : User.t :=
  User.with_appointments apps apiService.defaultUser.

(** The default user logged in, with the given appointments and session
    markers. *)
Definition storage (apps : list Appointment.t) (marked : list Z)
  : Storage.t :=
  {| Storage.localStorage := Some {[ "1234567890" := user apps ]};
     Storage.sessionStorage :=
       foldr (λ id m, <[App.reminded_key id := "true"]> m)
             {[ "currentUser" := "1234567890" ]} marked |}.

(** The component after login, showing [reminder]. *)
Definition app (st : Storage.t) (reminder : option Appointment.t) : App.t :=
  {| App.storage := st; App.authStatus := AuthStatus.loggedIn;
     App.currentUser := Some ("Mr Guna", "1234567890");
     App.currentPage := Page.Home; App.previousPage := Page.Home;
     App.notifications := []; App.reminderAppointment := reminder;
     App.timers := []; App.trace := [] |}.

(** A reminder for appointment 42 is on screen while the stored
    collection is empty. *)
Definition staleReminder : App.t :=
  app (storage [] []) (Some (appointment 42 tomorrow (Some upcoming))).

(** Clicks on a wizard with no therapy selected. *)
Definition refusedClicks : list SchedulingPage.Click :=
  [ SchedulingPage.NextButton; SchedulingPage.ModalConfirm;
    SchedulingPage.FinishButton "2025-09-15T00:00:00.000Z" now ].

(** A complete booking: one therapy, 16 September, 10:00am, three stars. *)
Definition bookingClicks : list SchedulingPage.Click :=
  [ SchedulingPage.TherapyCard 0; SchedulingPage.NextButton;
    SchedulingPage.CalendarDay 15; SchedulingPage.TimeSlot 1;
    SchedulingPage.BookNowButton; SchedulingPage.ModalConfirm;
    SchedulingPage.Star 2;
    SchedulingPage.FinishButton "2025-09-15T00:00:00.000Z" now ].

End Sample.

(** ** Further sample states *)

Module Scenario.

(** A session whose current user has no stored record. *)
Definition orphanSession : Storage.t :=
  {| Storage.localStorage := Some ∅;
     Storage.sessionStorage := {[ "currentUser" := "1234567890" ]} |}.

(** The clicks of a complete booking up to the rating. *)
Definition clicksToRating : list SchedulingPage.Click :=
  [ SchedulingPage.TherapyCard 0; SchedulingPage.NextButton;
    SchedulingPage.CalendarDay 15; SchedulingPage.TimeSlot 1;
    SchedulingPage.BookNowButton; SchedulingPage.ModalConfirm;
    SchedulingPage.Star 2 ].

(** [s.trim()] for texts of ASCII characters: blanks, tabs and line ends
    are dropped at both ends. *)
Definition isSpace (c : ascii) : bool :=
  let n := nat_of_ascii c in
  (n =? 32)%nat || ((9 <=? n)%nat && (n <=? 13)%nat).

Fixpoint trimStart (s : string) : string :=
  match s with
  | String c s' => if isSpace c then trimStart s' else s
  | EmptyString => EmptyString
  end.

Fixpoint trimEnd (s : string) : string :=
  match s with
  | String c s' =>
      match trimEnd s' with
      | EmptyString => if isSpace c then EmptyString else String c EmptyString
      | t => String c t
      end
  | EmptyString => EmptyString
  end.

Definition trim (s : string) : string := trimEnd (trimStart s).

Definition form : UserData.t :=
  {| UserData.name := "Asha"; UserData.age := "31";
     UserData.email := "   "; UserData.mobileNumber := "5550001111";
     UserData.password := ""; UserData.condition := "Migraine";
     UserData.pastConditions := "None"; UserData.previousTreatments := "None";
     UserData.allergies := "None" |}.

Definition formPage : CreateAccountPage.t :=
  {| CreateAccountPage.formData := form; CreateAccountPage.error := "";
     CreateAccountPage.isLoading := false |}.

End Scenario.

(** * Properties *)

(** ** Array helpers *)

Section ArrayFacts.
Context {A : Type} (p : A → bool).

Lemma find_Some_first l a :
  find p l = Some a →
  p a = true ∧ ∃ l1 l2, l = l1 ++ a :: l2 ∧ Forall (λ b, p b = false) l1.
Proof.
  induction l as [|x l IH]; simpl; [discriminate|].
  destruct (p x) eqn:Hx.
  - intros [= ->]. split; [done|]. by exists [], l.
  - intros Hf. destruct (IH Hf) as (Ha & l1 & l2 & -> & Hall).
    split; [done|]. exists (x :: l1), l2. split; [done|].
    by constructor.
Qed.

Lemma find_None_all l :
  find p l = None → Forall (λ b, p b = false) l.
Proof.
  induction l as [|x l IH]; simpl; [constructor|].
  destruct (p x) eqn:Hx; [discriminate|].
  intros Hf. constructor; auto.
Qed.

Lemma findIndex_from_absent l i :
  Forall (λ b, p b = false) l → findIndex_from p l i = -1.
Proof.
  intros Hall. revert i. induction Hall as [|x l Hx _ IH]; intros i; simpl.
  - done.
  - by rewrite Hx.
Qed.

Lemma findIndex_from_present l i :
  Exists (λ b, p b = true) l →
  ∃ k x, findIndex_from p l i = i + Z.of_nat k
         ∧ l !! k = Some x ∧ p x = true
         ∧ Forall (λ b, p b = false) (take k l).
Proof.
  intros Hex. revert i. induction l as [|x l IH]; intros i.
  - by apply Exists_nil in Hex.
  - simpl. destruct (p x) eqn:Hx.
    + exists 0%nat, x. repeat split; [lia|done|constructor].
    + apply Exists_cons in Hex as [Hex|Hex]; [congruence|].
      destruct (IH Hex (i + 1)) as (k & y & Hk & Hy & Hpy & Hall).
      exists (S k), y. repeat split; [lia|done|done|].
      simpl. by constructor.
Qed.
End ArrayFacts.

(** ** Reminder selection *)

Section ReminderFacts.
Context {P : Platform}.

Lemma isUpcomingUnreminded_Eligible now st a :
  App.isUpcomingUnreminded now st a = true ↔ Eligible now st a.
Proof.
  unfold App.isUpcomingUnreminded, Eligible, markedReminded, appointmentTime.
  rewrite !andb_true_iff, bool_decide_eq_true, negb_true_iff.
  destruct (Date_parse _) as [t|]; simpl.
  - rewrite Z.ltb_lt. split.
    + intros [[Hs Ht] Hr]. repeat split; [done|by exists t|congruence].
    + intros (Hs & (t' & [= <-] & Ht) & Hr). repeat split; [done..|].
      by destruct (truthy _).
  - split.
    + intros [[_ ?] _]. discriminate.
    + intros (_ & (t' & ? & _) & _). discriminate.
Qed.

Lemma isUpcomingUnreminded_not_Eligible now st a :
  App.isUpcomingUnreminded now st a = false ↔ ¬ Eligible now st a.
Proof.
  rewrite <- isUpcomingUnreminded_Eligible.
  by destruct (App.isUpcomingUnreminded now st a).
Qed.
End ReminderFacts.

(** C1. The reminder check run on login selects at most one appointment (its
    result is an optional appointment). An appointment it selects has status
    ['upcoming'], a date strictly after [now] and no session marker, and is
    the first appointment of the user's list, in list order, with these three
    properties; it becomes the reminder. When no appointment of the list has
    them, nothing is selected and the component state is left as it was. *)
Theorem reminder_selection_first_eligible {P : Platform} (now : Z) (s : App.t) :
  match App.selectReminder now (App.storage s) with
  | Some a =>
      FirstSuch (Eligible now (App.storage s))
        (apiService.getAppointments (App.storage s)) a
      ∧ App.reminderAppointment (App.checkUpcomingAppointments now s) = Some a
  | None =>
      Forall (λ b, ¬ Eligible now (App.storage s) b)
        (apiService.getAppointments (App.storage s))
      ∧ App.checkUpcomingAppointments now s = s
  end.
Proof.
  unfold App.checkUpcomingAppointments, App.selectReminder.
  destruct (find _ _) as [a|] eqn:Hfind.
  - apply find_Some_first in Hfind as (Ha & l1 & l2 & Hl & Hall).
    split; [|done]. split.
    + by apply isUpcomingUnreminded_Eligible.
    + exists l1, l2. split; [done|].
      eapply Forall_impl; [exact Hall|].
      intros b Hb. by apply isUpcomingUnreminded_not_Eligible.
  - split; [|done].
    apply find_None_all in Hfind.
    eapply Forall_impl; [exact Hfind|].
    intros b Hb. by apply isUpcomingUnreminded_not_Eligible.
Qed.

(** ** Markers over a session *)

Lemma reminded_key_not_currentUser id : App.reminded_key id ≠ "currentUser".
Proof. unfold App.reminded_key. simpl. discriminate. Qed.

Lemma updateAppointmentStatus_sessionStorage i status st :
  Storage.sessionStorage (apiService.updateAppointmentStatus i status st).2
  = Storage.sessionStorage st.
Proof.
  unfold apiService.updateAppointmentStatus.
  repeat (case_match; simpl; try done).
Qed.

Lemma bookAppointment_sessionStorage d now st :
  Storage.sessionStorage (apiService.bookAppointment d now st).2
  = Storage.sessionStorage st.
Proof.
  unfold apiService.bookAppointment.
  repeat (case_match; simpl; try done).
Qed.

Lemma updatePatientDetails_sessionStorage d st :
  Storage.sessionStorage (apiService.updatePatientDetails d st).2
  = Storage.sessionStorage st.
Proof.
  unfold apiService.updatePatientDetails.
  repeat (case_match; simpl; try done).
Qed.

(** A marker, once written, survives every storage operation. *)
Lemma session_step_keeps_marker st st' id :
  session_step st st' →
  Storage.session_get (App.reminded_key id) st = Some "true" →
  Storage.session_get (App.reminded_key id) st' = Some "true".
Proof.
  pose proof (reminded_key_not_currentUser id) as Hne.
  unfold Storage.session_get.
  intros Hstep Hm. destruct Hstep as
    [st|m pw st|ud st|st|ud st|d now st|i status st|id' st].
  - unfold apiService._initializeDB. by case_match.
  - unfold apiService.login.
    destruct (Storage.users st !! m) as [u|]; [|done].
    destruct (String.eqb _ _); [|done]. simpl.
    by rewrite lookup_insert_ne.
  - unfold apiService.createAccount.
    destruct (Storage.users st !! UserData.mobileNumber ud); [done|].
    destruct (inheritedKey (UserData.mobileNumber ud)); [done|]. simpl.
    by rewrite lookup_insert_ne.
  - simpl. by rewrite lookup_delete_ne.
  - by rewrite updatePatientDetails_sessionStorage.
  - by rewrite bookAppointment_sessionStorage.
  - by rewrite updateAppointmentStatus_sessionStorage.
  - simpl. destruct (decide (App.reminded_key id' = App.reminded_key id)) as [->|Hk].
    + by rewrite lookup_insert_eq.
    + by rewrite lookup_insert_ne.
Qed.

Lemma session_keeps_marker st st' id :
  rtc session_step st st' →
  Storage.session_get (App.reminded_key id) st = Some "true" →
  Storage.session_get (App.reminded_key id) st' = Some "true".
Proof.
  induction 1 as [|st st1 st2 Hstep _ IH]; [done|].
  intros Hm. apply IH. by eapply session_step_keeps_marker.
Qed.

(** An appointment whose marker is written is never selected. *)
Lemma marked_not_selected {P : Platform} now st id b :
  Storage.session_get (App.reminded_key id) st = Some "true" →
  App.selectReminder now st = Some b →
  Appointment.id b ≠ id.
Proof.
  intros Hm Hsel Hid. unfold App.selectReminder in Hsel.
  apply find_Some_first in Hsel as [Hb _].
  apply isUpcomingUnreminded_Eligible in Hb as (_ & _ & Hr).
  apply Hr. unfold markedReminded. by rewrite Hid, Hm.
Qed.

(** What each resolution leaves in the storage and in the record of
    effects. *)
Lemma resolve_effects r s a :
  App.reminderAppointment s = Some a →
  Storage.session_get (App.reminded_key (Appointment.id a))
    (App.storage (resolve r s)) = Some "true"
  ∧ App.reminderAppointment (resolve r s) = None
  ∧ ∃ pre mid,
      App.trace (resolve r s)
      = App.trace s ++ pre ++ [markEvent (Appointment.id a)] ++ mid ++ [clearEvent]
      ∧ clearEvent ∉ pre.
Proof.
  intros Hr. destruct r as [now| |]; simpl.
  - unfold App.handleConfirmReminder. rewrite Hr.
    destruct (apiService.updateAppointmentStatus _ _ _) as [result st] eqn:Hu.
    simpl. split; [|split; [done|]].
    + unfold Storage.session_get. simpl. by rewrite lookup_insert_eq.
    + eexists [_], [_]. split.
      * rewrite <- !app_assoc. reflexivity.
      * rewrite list_elem_of_singleton. discriminate.
  - unfold App.handleRescheduleReminder. rewrite Hr.
    unfold App.handleNavigate. case_bool_decide; simpl.
    + split; [|split; [done|]].
      * unfold Storage.session_get. simpl. by rewrite lookup_insert_eq.
      * eexists [], [_]. split.
        -- rewrite <- !app_assoc. reflexivity.
        -- apply not_elem_of_nil.
    + split; [|split; [done|]].
      * unfold Storage.session_get. simpl. by rewrite lookup_insert_eq.
      * eexists [], []. split.
        -- rewrite <- !app_assoc. reflexivity.
        -- apply not_elem_of_nil.
  - unfold App.handleDismissReminder. rewrite Hr. simpl.
    split; [|split; [done|]].
    + unfold Storage.session_get. simpl. by rewrite lookup_insert_eq.
    + eexists [], []. split.
      * rewrite <- !app_assoc. reflexivity.
      * apply not_elem_of_nil.
Qed.

(** C2. Every resolution of a surfaced reminder for appointment [a]
    (confirm, reschedule or dismiss) writes the session marker of [a] before
    it clears the reminder, whatever the status update returned; the
    reminder is cleared; and after any further storage operations of the
    session, no reminder selection returns an appointment with the id of
    [a]. *)
Theorem resolution_marks_reminded {P : Platform}
    (r : Resolution) (s : App.t) (a : Appointment.t) :
  App.reminderAppointment s = Some a →
  (∃ es, App.trace (resolve r s) = App.trace s ++ es
         ∧ MarkedBeforeCleared (Appointment.id a) es)
  ∧ App.reminderAppointment (resolve r s) = None
  ∧ ∀ st', rtc session_step (App.storage (resolve r s)) st' →
      ∀ now b, App.selectReminder now st' = Some b →
               Appointment.id b ≠ Appointment.id a.
Proof.
  intros Hr.
  destruct (resolve_effects r s a Hr) as (Hm & Hc & pre & mid & Ht & Hpre).
  split; [|split; [done|]].
  - exists (pre ++ [markEvent (Appointment.id a)] ++ mid ++ [clearEvent]).
    split; [done|]. exists pre, mid, []. split; [|done].
    by rewrite app_nil_r.
  - intros st' Hsteps now b Hsel.
    eapply marked_not_selected; [|exact Hsel].
    by eapply session_keeps_marker.
Qed.

(** Confirming a reminder whose appointment is no longer stored: the update
    fails, the marker is written all the same. *)
Lemma resolution_marks_reminded_witness :
  App.reminderAppointment Sample.staleReminder
  = Some (Sample.appointment 42 Sample.tomorrow (Some upcoming))
  ∧ (∃ es, App.trace (resolve (Confirm Sample.now) Sample.staleReminder)
           = App.trace Sample.staleReminder ++ es
           ∧ MarkedBeforeCleared 42 es)
  ∧ App.reminderAppointment (resolve (Confirm Sample.now) Sample.staleReminder)
    = None
  ∧ ∀ st',
      rtc session_step
        (App.storage (resolve (Confirm Sample.now) Sample.staleReminder)) st' →
      ∀ now b, App.selectReminder (P := UTC.platform) now st' = Some b →
               Appointment.id b ≠ 42.
Proof.
  split; [reflexivity|].
  apply (resolution_marks_reminded (P := UTC.platform)
           (Confirm Sample.now) Sample.staleReminder
           (Sample.appointment 42 Sample.tomorrow (Some upcoming))).
  reflexivity.
Defined.

(** C3. Evaluation of [handleConfirmReminder] on a reminder whose
    appointment is not in the stored collection: [updateAppointmentStatus]
    returns [false] and writes nothing, and the handler still queues
    ['Appointment Confirmed!']. *)
Theorem confirm_of_missing_appointment_reports_confirmed :
  apiService.getAppointments (App.storage Sample.staleReminder) = []
  ∧ apiService.updateAppointmentStatus 42 confirmed
      (App.storage Sample.staleReminder)
    = (false, App.storage Sample.staleReminder)
  ∧ App.trace (App.handleConfirmReminder Sample.now Sample.staleReminder)
    = [ EvUpdateAppointmentStatus 42 confirmed false;
        EvSessionSetItem "reminded_42" "true";
        EvAddNotification
          {| Notification.id := Sample.now;
             Notification.message := "Appointment Confirmed!" |};
        EvSetReminderAppointment None ]
  ∧ App.notifications (App.handleConfirmReminder Sample.now Sample.staleReminder)
    = [ {| Notification.id := Sample.now;
           Notification.message := "Appointment Confirmed!" |} ]
  ∧ Storage.localStorage
      (App.storage (App.handleConfirmReminder Sample.now Sample.staleReminder))
    = Storage.localStorage (App.storage Sample.staleReminder).
Proof. repeat split; vm_compute; reflexivity. Qed.

(** ** Status updates *)

(** The two shapes of a storage, as [getAppointments] and
    [updateAppointmentStatus] read it: the current user has a stored
    collection, or every status update fails and writes nothing. *)
Lemma current_collection st :
  (∃ m u apps,
      apiService.getCurrentUserMobileNumber st = Some m
      ∧ truthy (Some m) = true
      ∧ Storage.users st !! m = Some u
      ∧ User.appointments u = Some apps
      ∧ apiService.getAppointments st = apps)
  ∨ (apiService.getAppointments st = []
     ∧ ∀ i status, apiService.updateAppointmentStatus i status st = (false, st)).
Proof.
  unfold apiService.getAppointments, apiService.updateAppointmentStatus.
  destruct (apiService.getCurrentUserMobileNumber st) as [m|] eqn:Hm;
    [|by right].
  destruct (truthy (Some m)) eqn:Ht; simpl; [|by right].
  destruct (Storage.users st !! m) as [u|] eqn:Hu; [|by right].
  destruct (User.appointments u) as [apps|] eqn:Ha; [|by right].
  left. by exists m, u, apps.
Qed.

Lemma updateAppointmentStatus_unfold st m u apps i status :
  apiService.getCurrentUserMobileNumber st = Some m →
  truthy (Some m) = true →
  Storage.users st !! m = Some u →
  User.appointments u = Some apps →
  apiService.updateAppointmentStatus i status st
  = let k := findIndex (λ app, Appointment.id app =? i) apps in
    if k =? -1 then (false, st)
    else (true,
          Storage.put_users
            (<[m := User.with_appointments
                      (alter (Appointment.with_status status) (Z.to_nat k) apps) u]>
               (Storage.users st)) st).
Proof.
  intros Hm Ht Hu Ha. unfold apiService.updateAppointmentStatus.
  by rewrite Hm, Ht, Hu, Ha.
Qed.

Lemma no_appointment_no_match (apps : list Appointment.t) i :
  Forall (λ a, Appointment.id a ≠ i) apps →
  Forall (λ a, (Appointment.id a =? i) = false) apps.
Proof.
  intros Hall. eapply Forall_impl; [exact Hall|].
  intros a Ha. by apply Z.eqb_neq.
Qed.

(** C4. When no appointment of the current user's collection has the given
    id, [updateAppointmentStatus] returns the failure result [false] and the
    storage, hence the collection and the persisted record, is what it
    was. This covers a missing current user, a missing record and a missing
    collection, for which the collection reads as empty. *)
Theorem updateAppointmentStatus_not_found
    (st : Storage.t) (appointmentId : Z) (status : Status) :
  Forall (λ a, Appointment.id a ≠ appointmentId) (apiService.getAppointments st) →
  apiService.updateAppointmentStatus appointmentId status st = (false, st).
Proof.
  intros Hall.
  destruct (current_collection st) as [(m & u & apps & Hm & Ht & Hu & Ha & Hg)|[_ Hf]];
    [|apply Hf].
  rewrite (updateAppointmentStatus_unfold st m u apps) by done.
  rewrite Hg in Hall. unfold findIndex.
  by rewrite (findIndex_from_absent _ _ _ (no_appointment_no_match _ _ Hall)).
Qed.

(** An update for id 7 on a collection that holds ids 5 and 6. *)
Lemma updateAppointmentStatus_not_found_witness :
  Forall (λ a, Appointment.id a ≠ 7)
    (apiService.getAppointments
       (Sample.storage
          [Sample.appointment 5 Sample.tomorrow (Some upcoming);
           Sample.appointment 6 Sample.tomorrow (Some upcoming)] []))
  ∧ apiService.updateAppointmentStatus 7 confirmed
      (Sample.storage
         [Sample.appointment 5 Sample.tomorrow (Some upcoming);
          Sample.appointment 6 Sample.tomorrow (Some upcoming)] [])
    = (false,
       Sample.storage
         [Sample.appointment 5 Sample.tomorrow (Some upcoming);
          Sample.appointment 6 Sample.tomorrow (Some upcoming)] []).
Proof.
  assert (Hall : Forall (λ a, Appointment.id a ≠ 7)
    (apiService.getAppointments
       (Sample.storage
          [Sample.appointment 5 Sample.tomorrow (Some upcoming);
           Sample.appointment 6 Sample.tomorrow (Some upcoming)] []))).
  { vm_compute. repeat constructor; discriminate. }
  split; [exact Hall|].
  exact (updateAppointmentStatus_not_found _ 7 confirmed Hall).
Defined.

Lemma findIndex_from_alter {A} (p : A → bool) (f : A → A) l k i :
  (∀ x, p (f x) = p x) →
  findIndex_from p (alter f k l) i = findIndex_from p l i.
Proof.
  intros Hf. revert k i. induction l as [|x l IH]; intros k i; [done|].
  destruct k as [|k].
  - simpl. by rewrite Hf.
  - change (alter f (S k) (x :: l)) with (x :: alter f k l).
    simpl. by rewrite IH.
Qed.

Lemma with_status_idemp status a :
  Appointment.with_status status (Appointment.with_status status a)
  = Appointment.with_status status a.
Proof. done. Qed.

Lemma hasAppointment_match st i apps :
  apiService.getAppointments st = apps →
  hasAppointment st i →
  Exists (λ a, (Appointment.id a =? i) = true) apps.
Proof.
  intros <- (a & Hin & Hid). apply Exists_exists. exists a.
  split; [done|]. by apply Z.eqb_eq.
Qed.

(** C7. For an appointment id present in the current user's collection,
    [updateAppointmentStatus(id, 'confirmed')] succeeds, and calling it a
    second time succeeds as well and leaves exactly the storage the first
    call produced. *)
Theorem updateAppointmentStatus_confirmed_idempotent
    (st : Storage.t) (appointmentId : Z) :
  hasAppointment st appointmentId →
  (apiService.updateAppointmentStatus appointmentId confirmed st).1 = true
  ∧ apiService.updateAppointmentStatus appointmentId confirmed
      (apiService.updateAppointmentStatus appointmentId confirmed st).2
    = (true, (apiService.updateAppointmentStatus appointmentId confirmed st).2).
Proof.
  intros Hhas.
  destruct (current_collection st) as [(m & u & apps & Hm & Ht & Hu & Ha & Hg)|[Hg _]].
  2:{ destruct Hhas as (a & Hin & _). rewrite Hg in Hin.
      by apply elem_of_nil in Hin. }
  pose proof (hasAppointment_match st appointmentId apps Hg Hhas) as Hex.
  destruct (findIndex_from_present _ _ 0 Hex) as (k & x & Hk & Hx & Hpx & _).
  rewrite (updateAppointmentStatus_unfold st m u apps) by done.
  unfold findIndex. simpl. rewrite Hk.
  destruct (0 + Z.of_nat k =? -1) eqn:Hneg; [apply Z.eqb_eq in Hneg; lia|].
  simpl. split; [done|].
  set (apps' := alter (Appointment.with_status confirmed)
                      (Z.to_nat (0 + Z.of_nat k)) apps).
  rewrite (updateAppointmentStatus_unfold _ m (User.with_appointments apps' u) apps');
    [|done|done|by apply lookup_insert_eq|done].
  unfold findIndex. simpl. unfold apps' at 1.
  rewrite findIndex_from_alter by done.
  rewrite Hk, Hneg. f_equal.
  unfold Storage.put_users, Storage.users. simpl. f_equal. f_equal.
  rewrite insert_insert_eq. f_equal.
  unfold User.with_appointments. simpl. f_equal. f_equal.
  unfold apps'. rewrite findIndex_from_alter, Hk by done.
  rewrite list_alter_alter_eq.
  apply list_alter_ext; [|done].
  intros a _. apply with_status_idemp.
Qed.

(** Appointment 5 of a collection holding ids 5 and 6 is confirmed twice. *)
Lemma updateAppointmentStatus_confirmed_idempotent_witness :
  hasAppointment
    (Sample.storage
       [Sample.appointment 5 Sample.tomorrow (Some upcoming);
        Sample.appointment 6 Sample.tomorrow (Some upcoming)] []) 5
  ∧ (apiService.updateAppointmentStatus 5 confirmed
       (Sample.storage
          [Sample.appointment 5 Sample.tomorrow (Some upcoming);
           Sample.appointment 6 Sample.tomorrow (Some upcoming)] [])).1 = true
  ∧ apiService.updateAppointmentStatus 5 confirmed
      (apiService.updateAppointmentStatus 5 confirmed
         (Sample.storage
            [Sample.appointment 5 Sample.tomorrow (Some upcoming);
             Sample.appointment 6 Sample.tomorrow (Some upcoming)] [])).2
    = (true,
       (apiService.updateAppointmentStatus 5 confirmed
          (Sample.storage
             [Sample.appointment 5 Sample.tomorrow (Some upcoming);
              Sample.appointment 6 Sample.tomorrow (Some upcoming)] [])).2).
Proof.
  assert (Hhas : hasAppointment
    (Sample.storage
       [Sample.appointment 5 Sample.tomorrow (Some upcoming);
        Sample.appointment 6 Sample.tomorrow (Some upcoming)] []) 5).
  { exists (Sample.appointment 5 Sample.tomorrow (Some upcoming)).
    split; [|reflexivity]. vm_compute. left. }
  split; [exact Hhas|].
  exact (updateAppointmentStatus_confirmed_idempotent _ 5 Hhas).
Defined.

Example updateAppointmentStatus_sets_status :
  apiService.getAppointments
    (apiService.updateAppointmentStatus 6 confirmed
       (Sample.storage
          [Sample.appointment 5 Sample.tomorrow (Some upcoming);
           Sample.appointment 6 Sample.tomorrow (Some upcoming)] [])).2
  = [Sample.appointment 5 Sample.tomorrow (Some upcoming);
     Sample.appointment 6 Sample.tomorrow (Some confirmed)].
Proof. vm_compute. reflexivity. Qed.

(** ** Booking *)

Lemma bookAppointment_unfold st m u apps d now :
  apiService.getCurrentUserMobileNumber st = Some m →
  m ≠ "" →
  Storage.users st !! m = Some u →
  User.appointments u = Some apps →
  apiService.bookAppointment d now st
  = (Return true,
     Storage.put_users
       (<[m := User.with_appointments
                 (apps ++ [apiService.newAppointmentWithMeta d now]) u]>
          (Storage.users st)) st).
Proof.
  intros Hm Hne Hu Ha. unfold apiService.bookAppointment.
  rewrite Hm, Hu, Ha. simpl.
  destruct (String.eqb_spec m ""); [done|]. done.
Qed.

Lemma getAppointments_put_users st m u apps us :
  apiService.getCurrentUserMobileNumber st = Some m →
  m ≠ "" →
  us !! m = Some u →
  User.appointments u = Some apps →
  apiService.getAppointments (Storage.put_users us st) = apps.
Proof.
  intros Hm Hne Hu Ha. unfold apiService.getAppointments.
  change (apiService.getCurrentUserMobileNumber (Storage.put_users us st))
    with (apiService.getCurrentUserMobileNumber st).
  rewrite Hm. simpl. destruct (String.eqb_spec m ""); [done|]. simpl.
  unfold Storage.users. simpl. by rewrite Hu, Ha.
Qed.




(** ** Absent status *)

(** C6, the claim at a concrete input. The only stored appointment has no
    status field, a date after [now] and no session marker; the reminder
    check finds no appointment for it, and the callback of the check
    rejects it. *)
Lemma absent_status_not_selected :
  Appointment.status (Sample.appointment 1 Sample.tomorrow None) = None
  ∧ (∃ t, appointmentTime (P := UTC.platform)
            (Sample.appointment 1 Sample.tomorrow None) = Some t
          ∧ Sample.now < t)
  ∧ Storage.session_get (App.reminded_key 1)
      (Sample.storage [Sample.appointment 1 Sample.tomorrow None] []) = None
  ∧ apiService.getAppointments
      (Sample.storage [Sample.appointment 1 Sample.tomorrow None] [])
    = [Sample.appointment 1 Sample.tomorrow None]
  ∧ App.isUpcomingUnreminded (P := UTC.platform) Sample.now
      (Sample.storage [Sample.appointment 1 Sample.tomorrow None] [])
      (Sample.appointment 1 Sample.tomorrow None) = false
  ∧ App.selectReminder (P := UTC.platform) Sample.now
      (Sample.storage [Sample.appointment 1 Sample.tomorrow None] []) = None.
Proof.
  split; [reflexivity|]. split.
  - exists 1757980800000. split; [vm_compute; reflexivity|reflexivity].
  - repeat split; vm_compute; reflexivity.
Qed.

(** C6, amended. The reminder selection, the one operation of the program
    that reads [status], requires the field to be present and equal to
    ['upcoming']: an appointment with no status field is rejected by the
    callback of the check and is never the appointment selected, whatever
    its date and its marker. *)
Theorem absent_status_never_selected {P : Platform}
    (now : Z) (st : Storage.t) (a : Appointment.t) :
  Appointment.status a = None →
  App.isUpcomingUnreminded now st a = false
  ∧ App.selectReminder now st ≠ Some a.
Proof.
  intros Hs.
  assert (Hrej : App.isUpcomingUnreminded now st a = false).
  { unfold App.isUpcomingUnreminded. rewrite Hs.
    by rewrite bool_decide_eq_false_2. }
  split; [done|].
  intros Hsel. unfold App.selectReminder in Hsel.
  apply find_Some_first in Hsel as [Ha _]. congruence.
Qed.

(** The same appointment with the same date is selected once its status is
    ['upcoming'], and not selected while the field is absent. *)
Lemma absent_status_never_selected_witness :
  Appointment.status (Sample.appointment 1 Sample.tomorrow None) = None
  ∧ App.isUpcomingUnreminded (P := UTC.platform) Sample.now
      (Sample.storage [Sample.appointment 1 Sample.tomorrow None] [])
      (Sample.appointment 1 Sample.tomorrow None) = false
  ∧ App.selectReminder (P := UTC.platform) Sample.now
      (Sample.storage [Sample.appointment 1 Sample.tomorrow None] [])
    ≠ Some (Sample.appointment 1 Sample.tomorrow None).
Proof.
  split; [reflexivity|].
  apply (absent_status_never_selected (P := UTC.platform) Sample.now
           (Sample.storage [Sample.appointment 1 Sample.tomorrow None] [])
           (Sample.appointment 1 Sample.tomorrow None)).
  reflexivity.
Defined.

Example present_status_selected :
  App.selectReminder (P := UTC.platform) Sample.now
    (Sample.storage [Sample.appointment 1 Sample.tomorrow (Some upcoming)] [])
  = Some (Sample.appointment 1 Sample.tomorrow (Some upcoming)).
Proof. vm_compute. reflexivity. Qed.

(** List order decides, not the date: appointment 5 on 20 September stands
    before appointment 7 on 16 September and is the one selected. *)
Example first_in_list_not_earliest :
  App.selectReminder (P := UTC.platform) Sample.now
    (Sample.storage
       [Sample.appointment 5 "2025-09-20" (Some upcoming);
        Sample.appointment 7 "2025-09-16" (Some upcoming)] [])
  = Some (Sample.appointment 5 "2025-09-20" (Some upcoming)).
Proof. vm_compute. reflexivity. Qed.

(** The scenarios of the specification: of an appointment tomorrow and one
    yesterday the first is selected; of two eligible appointments 5 and 7
    the first in list order is selected, and 7 once 5 is marked. *)
Example reminder_scenarios :
  App.selectReminder (P := UTC.platform) Sample.now
    (Sample.storage
       [Sample.appointment 1 Sample.tomorrow (Some upcoming);
        Sample.appointment 2 Sample.yesterday (Some upcoming)] [])
  = Some (Sample.appointment 1 Sample.tomorrow (Some upcoming))
  ∧ App.selectReminder (P := UTC.platform) Sample.now
      (Sample.storage
         [Sample.appointment 5 Sample.tomorrow (Some upcoming);
          Sample.appointment 7 Sample.tomorrow (Some upcoming)] [])
    = Some (Sample.appointment 5 Sample.tomorrow (Some upcoming))
  ∧ App.selectReminder (P := UTC.platform) Sample.now
      (App.storage
         (App.handleDismissReminder
            (Sample.app
               (Sample.storage
                  [Sample.appointment 5 Sample.tomorrow (Some upcoming);
                   Sample.appointment 7 Sample.tomorrow (Some upcoming)] [])
               (Some (Sample.appointment 5 Sample.tomorrow (Some upcoming))))))
    = Some (Sample.appointment 7 Sample.tomorrow (Some upcoming)).
Proof. repeat split; vm_compute; reflexivity. Qed.

(** ** The booking wizard *)

Section WizardFacts.
Context {P : Platform}.
Import SchedulingPage.

Lemma wizardInvariant_start st : wizardInvariant (start st).
Proof.
  split; [by left|]. split; [discriminate|constructor].
Qed.

Lemma handleFinishBooking_page bookedAt now w :
  step (page (handleFinishBooking bookedAt now w)) = step (page w)
  ∧ selectedTherapies (page (handleFinishBooking bookedAt now w))
    = selectedTherapies (page w)
  ∧ showConfirmation (page (handleFinishBooking bookedAt now w))
    = showConfirmation (page w).
Proof.
  unfold handleFinishBooking.
  destruct (apiService.bookAppointment _ _ _) as [[[|]|] st]; done.
Qed.

Lemma handleFinishBooking_effects bookedAt now w :
  ∃ result rest,
    effects (handleFinishBooking bookedAt now w)
    = effects w
      ++ EffBookAppointment
           {| Draft.therapies := selectedTherapies (page w);
              Draft.date := selectedDate (page w);
              Draft.time := selectedTime (page w);
              Draft.bookedAt := bookedAt;
              Draft.centerRating := centerRating (page w) |} result
         :: rest
    ∧ Forall bookedWithTherapies rest.
Proof.
  unfold handleFinishBooking.
  destruct (apiService.bookAppointment _ _ _) as [[[|]|] st]; simpl.
  - eexists _, [_]. rewrite <- app_assoc. split; [done|].
    constructor; [exact I|constructor].
  - eexists _, [_]. rewrite <- app_assoc. split; [done|].
    constructor; [exact I|constructor].
  - eexists _, []. split; [done|]. constructor.
Qed.

Lemma wizardInvariant_dispatch c w :
  wizardInvariant w → wizardInvariant (dispatch c w).
Proof.
  intros Hinv. pose proof Hinv as (Hstep & Hshow & Heff).
  destruct c as [i| |i|i| | | |i|bookedAt now]; unfold dispatch.
  - destruct (ALL_THERAPIES !! i) as [th|]; [|done].
    destruct (step (page w) =? 1) eqn:H1; [|done].
    apply Z.eqb_eq in H1. split; [by left|]. by split.
  - destruct (_ && _) eqn:Hc; [|done].
    apply andb_true_iff in Hc as [H1 Hlen].
    apply Z.eqb_eq in H1. apply negb_true_iff, Z.eqb_neq in Hlen.
    unfold on_page, handleNextStep. rewrite H1. simpl.
    destruct (0 <? _) eqn:Hpos; simpl.
    + split; [|split]; simpl.
      * right. split; [by left|]. intros Hnil. by rewrite Hnil in Hlen.
      * intros Hs. specialize (Hshow Hs). lia.
      * done.
    + split; [by left|]. by split.
  - destruct (_ && _); [|done]. by split.
  - destruct (TIME_SLOTS !! i) as [tm|]; [|done].
    destruct (step (page w) =? 2); by split.
  - destruct (_ && _) eqn:Hc; [|done].
    apply andb_true_iff in Hc as [H2 _]. apply Z.eqb_eq in H2.
    unfold handleBookNow. destruct (_ && _); simpl.
    + split; [done|]. by split.
    + split; [exact Hstep|]. split; [exact Hshow|]. simpl.
      apply Forall_app. split; [done|].
      constructor; [exact I|constructor].
  - destruct (showConfirmation (page w)) eqn:Hs; [|done].
    split; [done|]. by split.
  - destruct (showConfirmation (page w)) eqn:Hs; [|done].
    specialize (Hshow eq_refl).
    split; [|by split]. simpl.
    right. split; [by right|]. destruct Hstep as [?|[_ ?]]; [lia|done].
  - destruct (_ && _); by split.
  - destruct (_ && _) eqn:Hc; [|done].
    apply andb_true_iff in Hc as [H3 _]. apply Z.eqb_eq in H3.
    destruct (handleFinishBooking_page bookedAt now w) as (Hs & Ht & Hsh).
    destruct (handleFinishBooking_effects bookedAt now w)
      as (result & rest & He & Hrest).
    assert (Hne : selectedTherapies (page w) ≠ []).
    { destruct Hstep as [?|[_ ?]]; [lia|done]. }
    unfold wizardInvariant. rewrite Hs, Ht, Hsh, He.
    split; [done|]. split; [done|].
    apply Forall_app. split; [done|]. by constructor.
Qed.

Lemma wizardInvariant_run cs w :
  wizardInvariant w → wizardInvariant (run cs w).
Proof.
  revert w. induction cs as [|c cs IH]; intros w Hw; [done|].
  simpl. apply IH. by apply wizardInvariant_dispatch.
Qed.

(** With no therapy selected the wizard is on its first step, where no
    click writes to the storage or calls the repository. *)
Lemma dispatch_without_therapies c w :
  wizardInvariant w →
  selectedTherapies (page w) = [] →
  storage (dispatch c w) = storage w ∧ effects (dispatch c w) = effects w.
Proof.
  intros (Hstep & Hshow & _) Hnil.
  assert (H1 : step (page w) = 1) by (destruct Hstep as [?|[_ ?]]; done).
  assert (Hs : showConfirmation (page w) = false).
  { destruct (showConfirmation (page w)); [|done].
    specialize (Hshow eq_refl). lia. }
  destruct c as [i| |i|i| | | |i|bookedAt now]; unfold dispatch;
    rewrite ?H1, ?Hs; simpl; try done.
  - by destruct (ALL_THERAPIES !! i).
  - by destruct (negb _).
  - by destruct (TIME_SLOTS !! i).
Qed.
End WizardFacts.

(** C8, the claim at a concrete input. On a freshly opened wizard no therapy
    is selected. The attempt to go on, a click on Next, leaves the wizard as
    it is and emits nothing: no alert, no error, no call of the repository.
    The code signals a failed validation only for a missing date or time,
    where [handleBookNow] raises an alert; for missing therapies the refusal
    has no outcome a caller or the user could observe. *)
Lemma empty_therapies_refused_silently :
  SchedulingPage.selectedTherapies
    (SchedulingPage.page (SchedulingPage.start (Sample.storage [] []))) = []
  ∧ SchedulingPage.dispatch (P := UTC.platform) SchedulingPage.NextButton
      (SchedulingPage.start (Sample.storage [] []))
    = SchedulingPage.start (Sample.storage [] [])
  ∧ SchedulingPage.handleNextStep SchedulingPage.init = SchedulingPage.init
  ∧ SchedulingPage.effects
      (SchedulingPage.run (P := UTC.platform) Sample.refusedClicks
         (SchedulingPage.start (Sample.storage [] []))) = []
  ∧ SchedulingPage.effects
      (SchedulingPage.handleBookNow
         (SchedulingPage.start (Sample.storage [] [])))
    = [SchedulingPage.EffAlert "Please select a date and time."].
Proof. repeat split; vm_compute; reflexivity. Qed.

(** C8, amended. An attempt to create an appointment with no therapy
    selected is refused before it reaches the repository, and silently.
    After any clicks on a freshly opened booking wizard every call of
    [bookAppointment] the wizard has made carried a non-empty therapies
    list; and while no therapy is selected, [handleNextStep] leaves the page
    as it is, a click on Next leaves the whole wizard as it is, and no click
    emits an alert, calls the repository or writes to the storage. *)
Theorem empty_therapies_never_booked {P : Platform}
    (st : Storage.t) (cs : list SchedulingPage.Click) :
  Forall bookedWithTherapies
    (SchedulingPage.effects (SchedulingPage.run cs (SchedulingPage.start st)))
  ∧ (SchedulingPage.selectedTherapies
       (SchedulingPage.page (SchedulingPage.run cs (SchedulingPage.start st))) = [] →
     SchedulingPage.handleNextStep
       (SchedulingPage.page (SchedulingPage.run cs (SchedulingPage.start st)))
     = SchedulingPage.page (SchedulingPage.run cs (SchedulingPage.start st))
     ∧ SchedulingPage.dispatch SchedulingPage.NextButton
         (SchedulingPage.run cs (SchedulingPage.start st))
       = SchedulingPage.run cs (SchedulingPage.start st)
     ∧ ∀ c,
         SchedulingPage.storage
           (SchedulingPage.dispatch c (SchedulingPage.run cs (SchedulingPage.start st)))
         = SchedulingPage.storage (SchedulingPage.run cs (SchedulingPage.start st))
         ∧ SchedulingPage.effects
             (SchedulingPage.dispatch c (SchedulingPage.run cs (SchedulingPage.start st)))
           = SchedulingPage.effects (SchedulingPage.run cs (SchedulingPage.start st))).
Proof.
  pose proof (wizardInvariant_run cs _ (wizardInvariant_start st)) as Hinv.
  split; [apply Hinv|].
  intros Hnil. split; [|split].
  - unfold SchedulingPage.handleNextStep. rewrite Hnil. simpl.
    by rewrite andb_false_r.
  - unfold SchedulingPage.dispatch. rewrite Hnil. simpl.
    by rewrite andb_false_r.
  - intros c. by apply dispatch_without_therapies.
Qed.

(** No therapy is selected; Next, the modal and Finish are clicked. *)
Lemma empty_therapies_never_booked_witness :
  SchedulingPage.selectedTherapies
    (SchedulingPage.page
       (SchedulingPage.run (P := UTC.platform) Sample.refusedClicks
          (SchedulingPage.start (Sample.storage [] [])))) = []
  ∧ SchedulingPage.handleNextStep
      (SchedulingPage.page
         (SchedulingPage.run (P := UTC.platform) Sample.refusedClicks
            (SchedulingPage.start (Sample.storage [] []))))
    = SchedulingPage.page
        (SchedulingPage.run (P := UTC.platform) Sample.refusedClicks
           (SchedulingPage.start (Sample.storage [] [])))
  ∧ SchedulingPage.dispatch (P := UTC.platform) SchedulingPage.NextButton
      (SchedulingPage.run (P := UTC.platform) Sample.refusedClicks
         (SchedulingPage.start (Sample.storage [] [])))
    = SchedulingPage.run (P := UTC.platform) Sample.refusedClicks
        (SchedulingPage.start (Sample.storage [] []))
  ∧ ∀ c,
      SchedulingPage.storage
        (SchedulingPage.dispatch (P := UTC.platform) c
           (SchedulingPage.run (P := UTC.platform) Sample.refusedClicks
              (SchedulingPage.start (Sample.storage [] []))))
      = SchedulingPage.storage
          (SchedulingPage.run (P := UTC.platform) Sample.refusedClicks
             (SchedulingPage.start (Sample.storage [] [])))
      ∧ SchedulingPage.effects
          (SchedulingPage.dispatch (P := UTC.platform) c
             (SchedulingPage.run (P := UTC.platform) Sample.refusedClicks
                (SchedulingPage.start (Sample.storage [] []))))
        = SchedulingPage.effects
            (SchedulingPage.run (P := UTC.platform) Sample.refusedClicks
               (SchedulingPage.start (Sample.storage [] []))).
Proof.
  split; [reflexivity|].
  apply (empty_therapies_never_booked (P := UTC.platform)
           (Sample.storage [] []) Sample.refusedClicks).
  reflexivity.
Defined.

(** The wizard does book once a therapy, a date and a time are chosen: the
    repository is called with them and the record is appended. *)
Example wizard_books :
  SchedulingPage.effects
    (SchedulingPage.run (P := UTC.platform) Sample.bookingClicks
       (SchedulingPage.start (Sample.storage [] [])))
  = [ SchedulingPage.EffBookAppointment
        {| Draft.therapies := [Sample.karama]; Draft.date := "2025-09-16";
           Draft.time := "10:00am";
           Draft.bookedAt := "2025-09-15T00:00:00.000Z";
           Draft.centerRating := 3 |} (Return true);
      SchedulingPage.EffBookingComplete ]
  ∧ apiService.getAppointments
      (SchedulingPage.storage
         (SchedulingPage.run (P := UTC.platform) Sample.bookingClicks
            (SchedulingPage.start (Sample.storage [] []))))
    = [ {| Appointment.id := Sample.now; Appointment.therapies := [Sample.karama];
           Appointment.date := "2025-09-16"; Appointment.time := "10:00am";
           Appointment.bookedAt := "2025-09-15T00:00:00.000Z";
           Appointment.centerRating := Some 3;
           Appointment.status := Some upcoming |} ].
Proof. split; vm_compute; reflexivity. Qed.

(** ** The notification queue *)

Lemma expire_notifications id s :
  App.notifications (App.expire id s)
  = List.filter (λ n, negb (Notification.id n =? id)) (App.notifications s).
Proof. done. Qed.

Lemma filter_twice {A} (p : A → bool) l :
  List.filter p (List.filter p l) = List.filter p l.
Proof.
  induction l as [|x l IH]; [done|]. simpl.
  destruct (p x) eqn:Hx; simpl; [|done]. by rewrite Hx, IH.
Qed.

Lemma filter_all {A} (p : A → bool) l :
  Forall (λ x, p x = true) l → List.filter p l = l.
Proof.
  induction 1 as [|x l Hx _ IH]; [done|]. simpl. by rewrite Hx, IH.
Qed.

Lemma expire_idempotent id s :
  App.expire id (App.expire id s) = App.expire id s.
Proof.
  unfold App.expire, App.setNotifications, filter. simpl.
  by rewrite filter_twice.
Qed.

Lemma expire_absent id s :
  ¬ queued id s → App.expire id s = s.
Proof.
  intros Hq. destruct s as [st au cu cp pp ns ra tms tr].
  unfold App.expire, App.setNotifications, filter. simpl. f_equal.
  apply filter_all. apply Forall_forall. intros n Hn.
  apply negb_true_iff, Z.eqb_neq. intros Hid. apply Hq. by exists n.
Qed.

(** The callbacks of a list of timers, run in order: the queue loses the
    entries at which some timer is aimed, and nothing else changes. *)
Lemma run_callbacks_notifications tms s :
  App.notifications
    (fold_left (λ acc tm, App.expire (Timer.target tm) acc) tms s)
  = List.filter
      (λ n, forallb (λ tm, negb (Notification.id n =? Timer.target tm)) tms)
      (App.notifications s).
Proof.
  revert s. induction tms as [|tm tms IH]; intros s; simpl.
  - symmetry. apply filter_all. by apply Forall_forall.
  - rewrite IH, expire_notifications.
    induction (App.notifications s) as [|n ns IHn]; [done|]. simpl.
    destruct (negb (Notification.id n =? Timer.target tm)); simpl.
    + destruct (forallb _ tms); by rewrite IHn.
    + done.
Qed.

Lemma run_callbacks_timers tms s :
  App.timers (fold_left (λ acc tm, App.expire (Timer.target tm) acc) tms s)
  = App.timers s.
Proof.
  revert s. induction tms as [|tm tms IH]; intros s; simpl; [done|].
  by rewrite IH.
Qed.

Lemma runTimers_timers t s :
  App.timers (App.runTimers t s)
  = List.filter (λ tm, negb (App.isDue t tm)) (App.timers s).
Proof. unfold App.runTimers. by rewrite run_callbacks_timers. Qed.

(** Under the invariant, the event loop at clock reading [t] keeps exactly
    the entries queued less than 3000 ms before [t]. *)
Lemma runTimers_notifications t s :
  queueInvariant s →
  App.notifications (App.runTimers t s)
  = List.filter (λ n, t <? Notification.id n + 3000) (App.notifications s).
Proof.
  intros [Hcover Hdue]. unfold App.runTimers.
  rewrite run_callbacks_notifications. simpl.
  apply List.filter_ext_in. intros n Hn.
  apply list_elem_of_In in Hn.
  rewrite Forall_forall in Hcover. rewrite Forall_forall in Hdue.
  destruct (t <? Notification.id n + 3000) eqn:Hlt.
  - apply Z.ltb_lt in Hlt. apply forallb_forall. intros tm Htm.
    apply List.filter_In in Htm as [Htm Hd].
    apply list_elem_of_In in Htm. specialize (Hdue tm Htm).
    unfold App.isDue in Hd. apply Z.leb_le in Hd.
    apply negb_true_iff, Z.eqb_neq. lia.
  - apply Z.ltb_ge in Hlt.
    destruct (proj1 (Exists_exists _ _) (Hcover n Hn)) as (tm & Htm & Htarget).
    apply not_true_is_false. intros Hall.
    rewrite forallb_forall in Hall.
    assert (Hin : In tm (List.filter (App.isDue t) (App.timers s))).
    { apply List.filter_In. split; [by apply list_elem_of_In|].
      unfold App.isDue. apply Z.leb_le. specialize (Hdue tm Htm). lia. }
    specialize (Hall tm Hin).
    apply negb_true_iff, Z.eqb_neq in Hall. congruence.
Qed.

Lemma queueInvariant_init st : queueInvariant (App.init st).
Proof. split; constructor. Qed.

Lemma queueInvariant_addNotification now message s :
  queueInvariant s → queueInvariant (App.addNotification now message s).
Proof.
  intros [Hcover Hdue]. split; simpl.
  - apply Forall_app. split.
    + eapply Forall_impl; [exact Hcover|].
      intros n Hn. apply Exists_app. by left.
    + constructor; [|constructor].
      apply Exists_app. right. by constructor.
  - apply Forall_app. split; [done|]. by repeat constructor.
Qed.

Lemma queueInvariant_runTimers t s :
  queueInvariant s → queueInvariant (App.runTimers t s).
Proof.
  intros Hinv. pose proof Hinv as [Hcover Hdue].
  rewrite Forall_forall in Hcover. rewrite Forall_forall in Hdue.
  split.
  - rewrite runTimers_notifications, runTimers_timers by done.
    apply Forall_forall. intros n Hn.
    apply list_elem_of_In, List.filter_In in Hn as [Hn Hlt].
    apply list_elem_of_In in Hn. apply Z.ltb_lt in Hlt.
    destruct (proj1 (Exists_exists _ _) (Hcover n Hn)) as (tm & Htm & Htarget).
    apply Exists_exists. exists tm. split; [|done].
    apply list_elem_of_In, List.filter_In. split; [by apply list_elem_of_In|].
    unfold App.isDue. apply negb_true_iff, Z.leb_gt.
    specialize (Hdue tm Htm). lia.
  - rewrite runTimers_timers. apply Forall_forall. intros tm Htm.
    apply list_elem_of_In, List.filter_In in Htm as [Htm _].
    apply Hdue. by apply list_elem_of_In.
Qed.

(** The handlers of the component queue entries through [addNotification]
    only, so they keep the invariant. *)
Lemma queueInvariant_resolve r s :
  queueInvariant s → queueInvariant (resolve r s).
Proof.
  intros Hinv. destruct r as [now| |]; simpl.
  - unfold App.handleConfirmReminder.
    destruct (App.reminderAppointment s) as [a|]; [|done].
    destruct (apiService.updateAppointmentStatus _ _ _) as [result st].
    apply (queueInvariant_addNotification now "Appointment Confirmed!"
             (App.sessionSetItem (App.reminded_key (Appointment.id a)) "true"
                (App.emit
                   (EvUpdateAppointmentStatus (Appointment.id a) confirmed result)
                   (App.with_storage st s)))).
    exact Hinv.
  - unfold App.handleRescheduleReminder, App.handleNavigate.
    destruct (App.reminderAppointment s) as [a|]; [|done].
    by case_bool_decide.
  - unfold App.handleDismissReminder.
    by destruct (App.reminderAppointment s) as [a|].
Qed.

Lemma queueInvariant_checkUpcomingAppointments {P : Platform} now s :
  queueInvariant s → queueInvariant (App.checkUpcomingAppointments now s).
Proof.
  intros Hinv. unfold App.checkUpcomingAppointments.
  by destruct (App.selectReminder now (App.storage s)).
Qed.

Lemma queued_filter (q : Z → bool) id s ns :
  App.notifications s = List.filter (λ n, q (Notification.id n)) ns →
  queued id s ↔ (q id = true ∧ ∃ n, n ∈ ns ∧ Notification.id n = id).
Proof.
  intros Heq. unfold queued. rewrite Heq. split.
  - intros (n & Hn & Hid).
    apply list_elem_of_In, List.filter_In in Hn as [Hn Hq].
    split; [by rewrite <- Hid|]. exists n. split; [by apply list_elem_of_In|done].
  - intros (Hq & n & Hn & Hid). exists n. split; [|done].
    apply list_elem_of_In, List.filter_In.
    split; [by apply list_elem_of_In|by rewrite Hid].
Qed.

(** C9. In a state whose queue is covered by its timers (the state of a
    fresh component is, and [addNotification] and the event loop keep it
    so): [addNotification] at clock reading [now] queues the entry with id
    [now] and registers a timer due at [now + 3000]; the entry is still
    queued when the event loop runs before that time and is gone when it
    runs at that time or later; in general the event loop at clock reading
    [t] keeps exactly the entries queued less than 3000 ms before [t].
    Removing an id twice is removing it once, and removing an id that is
    not queued changes nothing. *)
Theorem notification_expires_after_3000ms
    (s : App.t) (now : Z) (message : string) :
  queueInvariant s →
  App.notifications (App.addNotification now message s)
  = App.notifications s
    ++ [ {| Notification.id := now; Notification.message := message |} ]
  ∧ App.timers (App.addNotification now message s)
    = App.timers s ++ [ {| Timer.due := now + 3000; Timer.target := now |} ]
  ∧ queueInvariant (App.addNotification now message s)
  ∧ (∀ t, t < now + 3000 →
          queued now (App.runTimers t (App.addNotification now message s)))
  ∧ (∀ t, now + 3000 ≤ t →
          ¬ queued now (App.runTimers t (App.addNotification now message s)))
  ∧ (∀ s1 t, queueInvariant s1 →
       queueInvariant (App.runTimers t s1)
       ∧ App.notifications (App.runTimers t s1)
         = List.filter (λ n, t <? Notification.id n + 3000)
                       (App.notifications s1))
  ∧ (∀ id s1, App.expire id (App.expire id s1) = App.expire id s1)
  ∧ (∀ id s1, ¬ queued id s1 → App.expire id s1 = s1).
Proof.
  intros Hinv.
  pose proof (queueInvariant_addNotification now message s Hinv) as Hinv'.
  split; [done|]. split; [done|]. split; [done|].
  split; [|split; [|split; [|split]]].
  - intros t Ht.
    apply (queued_filter (λ i, t <? i + 3000) now _ _
             (runTimers_notifications t _ Hinv')).
    split; [by apply Z.ltb_lt|].
    exists {| Notification.id := now; Notification.message := message |}.
    split; [|done]. simpl.
    apply elem_of_app. right. by left.
  - intros t Ht Hq.
    apply (queued_filter (λ i, t <? i + 3000) now _ _
             (runTimers_notifications t _ Hinv')) in Hq as [Hlt _].
    apply Z.ltb_lt in Hlt. lia.
  - intros s1 t H1. split.
    + by apply queueInvariant_runTimers.
    + by apply runTimers_notifications.
  - intros id s1. apply expire_idempotent.
  - intros id s1. apply expire_absent.
Qed.

(** The SOS notification on a fresh component: gone once the event loop
    runs 3000 ms later, still there 2999 ms later. *)
Lemma notification_expires_after_3000ms_witness :
  queueInvariant (App.init (Sample.storage [] []))
  ∧ queued Sample.now
      (App.runTimers (Sample.now + 2999)
         (App.handleSosClick Sample.now (App.init (Sample.storage [] []))))
  ∧ ¬ queued Sample.now
        (App.runTimers (Sample.now + 3000)
           (App.handleSosClick Sample.now (App.init (Sample.storage [] [])))).
Proof.
  pose proof (queueInvariant_init (Sample.storage [] [])) as Hinv.
  split; [exact Hinv|].
  destruct (notification_expires_after_3000ms
              (App.init (Sample.storage [] [])) Sample.now
              "SOS Alert Sent! A practitioner has been notified." Hinv)
    as (_ & _ & _ & Hbefore & Hafter & _).
  split.
  - apply Hbefore. reflexivity.
  - apply Hafter. discriminate.
Defined.

Example notification_lifecycle :
  App.notifications
    (App.runTimers (Sample.now + 2999)
       (App.handleSosClick Sample.now (App.init (Sample.storage [] []))))
  = [ {| Notification.id := Sample.now;
         Notification.message :=
           "SOS Alert Sent! A practitioner has been notified." |} ]
  ∧ App.notifications
      (App.runTimers (Sample.now + 3050)
         (App.handleSosClick Sample.now (App.init (Sample.storage [] []))))
    = []
  ∧ App.timers
      (App.runTimers (Sample.now + 3050)
         (App.handleSosClick Sample.now (App.init (Sample.storage [] []))))
    = [].
Proof. repeat split; vm_compute; reflexivity. Qed.

(** C10. [addNotification] takes the id from the clock. Two notifications
    added at the same clock reading are both queued, in order, with the same
    id; one run of the expiry callback for that id removes both, leaving
    what the queue held before without the entries of that id. *)
Theorem same_millisecond_notifications_share_id
    (s : App.t) (now : Z) (m1 m2 : string) :
  App.notifications (App.addNotification now m2 (App.addNotification now m1 s))
  = App.notifications s
    ++ [ {| Notification.id := now; Notification.message := m1 |};
         {| Notification.id := now; Notification.message := m2 |} ]
  ∧ App.notifications
      (App.expire now (App.addNotification now m2 (App.addNotification now m1 s)))
    = List.filter (λ n, negb (Notification.id n =? now)) (App.notifications s)
  ∧ ¬ queued now
        (App.expire now (App.addNotification now m2 (App.addNotification now m1 s))).
Proof.
  split; [|split].
  - simpl. by rewrite <- app_assoc.
  - rewrite expire_notifications. simpl.
    rewrite !List.filter_app. simpl. rewrite Z.eqb_refl. simpl.
    by rewrite !app_nil_r.
  - intros (n & Hn & Hid).
    rewrite expire_notifications in Hn.
    apply list_elem_of_In, List.filter_In in Hn as [_ Hne].
    apply negb_true_iff, Z.eqb_neq in Hne. done.
Qed.

Example same_millisecond_example :
  App.notifications
    (App.addNotification Sample.now "Appointment booked successfully!"
       (App.addNotification Sample.now "Appointment Confirmed!"
          (App.init (Sample.storage [] []))))
  = [ {| Notification.id := Sample.now;
         Notification.message := "Appointment Confirmed!" |};
      {| Notification.id := Sample.now;
         Notification.message := "Appointment booked successfully!" |} ]
  ∧ App.notifications
      (App.runTimers (Sample.now + 3000)
         (App.addNotification Sample.now "Appointment booked successfully!"
            (App.addNotification Sample.now "Appointment Confirmed!"
               (App.init (Sample.storage [] [])))))
    = []
  ∧ App.notifications
      (App.expire Sample.now
         (App.addNotification Sample.now "Appointment booked successfully!"
            (App.addNotification Sample.now "Appointment Confirmed!"
               (App.init (Sample.storage [] [])))))
    = [].
Proof. repeat split; vm_compute; reflexivity. Qed.

Example UTC_parse_example :
  UTC.parse (replace_all "-" "/" "2025-09-15") = Some Sample.now
  ∧ UTC.parse "soon" = None
  ∧ UTC.isoDate 7 = "2025-09-07".
Proof. repeat split; vm_compute; reflexivity. Qed.

(** * Further properties of the code *)

(** ** The session's current user *)

Lemma truthy_Some_iff m : truthy (Some m) = true ↔ m ≠ "".
Proof.
  simpl. destruct (String.eqb_spec m ""); simpl; split; congruence.
Qed.

(** The two shapes of a session: no usable current user, or one with a
    non-empty number. *)
Lemma current_user_cases st :
  truthy (apiService.getCurrentUserMobileNumber st) = false
  ∨ ∃ m, apiService.getCurrentUserMobileNumber st = Some m ∧ m ≠ "".
Proof.
  destruct (apiService.getCurrentUserMobileNumber st) as [m|] eqn:Hm;
    [|by left].
  destruct (truthy (Some m)) eqn:Ht; [|by left].
  right. exists m. split; [done|]. by apply truthy_Some_iff.
Qed.

(** X1. [login] succeeds exactly when a record is stored under the number
    and its password is the one given. A successful login returns the
    record's name and number, makes the number the session's current user
    and writes nothing else; a failed login leaves the storage as it
    was. *)
Theorem login_outcome (mobileNumber password : string) (st : Storage.t) :
  match (apiService.login mobileNumber password st).1 with
  | Some user =>
      (∃ u, Storage.users st !! mobileNumber = Some u
            ∧ User.password u = password
            ∧ user = (User.name (User.details u), User.mobileNumber u))
      ∧ apiService.getCurrentUserMobileNumber
          (apiService.login mobileNumber password st).2 = Some mobileNumber
      ∧ Storage.localStorage (apiService.login mobileNumber password st).2
        = Storage.localStorage st
      ∧ Storage.sessionStorage (apiService.login mobileNumber password st).2
        = <["currentUser" := mobileNumber]> (Storage.sessionStorage st)
  | None =>
      (apiService.login mobileNumber password st).2 = st
      ∧ ∀ u, Storage.users st !! mobileNumber = Some u →
             User.password u ≠ password
  end.
Proof.
  unfold apiService.login.
  destruct (Storage.users st !! mobileNumber) as [u|] eqn:Hu; simpl.
  - destruct (String.eqb_spec (User.password u) password) as [Hpw|Hpw]; simpl.
    + split; [by exists u|]. split; [|done].
      unfold apiService.getCurrentUserMobileNumber, Storage.session_get.
      simpl. apply lookup_insert_eq.
    + split; [done|]. by intros u' [= <-].
  - split; [done|]. discriminate.
Qed.

(** The form offers free text for the number: a number that names an
    inherited property is refused like a taken one, and nothing is
    written. *)
Lemma createAccount_refuses_inherited_key (userData : UserData.t) (st : Storage.t) :
  inheritedKey (UserData.mobileNumber userData) = true →
  apiService.createAccount userData st = (None, st).
Proof.
  intros Hk. unfold apiService.createAccount. rewrite Hk.
  by destruct (Storage.users st !! UserData.mobileNumber userData).
Qed.

(** X2. When the number is free, that is when no record is stored under it
    and it does not name an inherited property, [createAccount] stores the
    new record and logs the new user in: the same number and password then
    pass [login], the new user's appointment list is empty, every other
    record is untouched, and a second [createAccount] with that number is
    refused and writes nothing. *)
Theorem createAccount_then_login (userData : UserData.t) (st : Storage.t) :
  Storage.users st !! UserData.mobileNumber userData = None →
  inheritedKey (UserData.mobileNumber userData) = false →
  (apiService.createAccount userData st).1
  = Some (UserData.name userData, UserData.mobileNumber userData)
  ∧ apiService.getCurrentUserMobileNumber (apiService.createAccount userData st).2
    = Some (UserData.mobileNumber userData)
  ∧ (apiService.login (UserData.mobileNumber userData)
       (UserData.password userData)
       (apiService.createAccount userData st).2).1
    = Some (UserData.name userData, UserData.mobileNumber userData)
  ∧ apiService.getAppointments (apiService.createAccount userData st).2 = []
  ∧ (∀ m, m ≠ UserData.mobileNumber userData →
          Storage.users (apiService.createAccount userData st).2 !! m
          = Storage.users st !! m)
  ∧ apiService.createAccount userData (apiService.createAccount userData st).2
    = (None, (apiService.createAccount userData st).2).
Proof.
  intros Hfree Hown.
  assert (Hcreate : apiService.createAccount userData st
    = (Some (UserData.name userData, UserData.mobileNumber userData),
       Storage.session_set "currentUser" (UserData.mobileNumber userData)
         (Storage.put_users
            (<[UserData.mobileNumber userData := apiService.newUser userData]>
               (Storage.users st)) st))).
  { unfold apiService.createAccount. by rewrite Hfree, Hown. }
  rewrite Hcreate. simpl.
  split; [done|]. split.
  { unfold apiService.getCurrentUserMobileNumber, Storage.session_get.
    simpl. apply lookup_insert_eq. }
  split.
  { unfold apiService.login, Storage.users. simpl.
    rewrite lookup_insert_eq. simpl. by rewrite String.eqb_refl. }
  split.
  { unfold apiService.getAppointments, apiService.getCurrentUserMobileNumber,
      Storage.session_get, Storage.users. simpl.
    rewrite lookup_insert_eq.
    destruct (negb (truthy _)); [done|]. by rewrite lookup_insert_eq. }
  split.
  { intros m Hm. unfold Storage.users. simpl. by rewrite lookup_insert_ne. }
  unfold apiService.createAccount.
  unfold Storage.users at 1. simpl. by rewrite lookup_insert_eq.
Qed.

(** A new account on the seeded store. *)
Lemma createAccount_then_login_witness :
  Storage.users (Sample.storage [] []) !! "5550001111" = None
  ∧ inheritedKey "5550001111" = false
  ∧ (apiService.login "5550001111" "secret"
       (apiService.createAccount
          {| UserData.name := "Asha"; UserData.age := "31";
             UserData.email := "asha@example.com";
             UserData.mobileNumber := "5550001111";
             UserData.password := "secret";
             UserData.condition := "Migraine";
             UserData.pastConditions := "None";
             UserData.previousTreatments := "None";
             UserData.allergies := "None" |}
          (Sample.storage [] [])).2).1
    = Some ("Asha", "5550001111").
Proof.
  assert (Hfree : Storage.users (Sample.storage [] []) !! "5550001111" = None)
    by reflexivity.
  split; [exact Hfree|]. split; [reflexivity|].
  refine (proj1 (proj2 (proj2 (createAccount_then_login
           {| UserData.name := "Asha"; UserData.age := "31";
              UserData.email := "asha@example.com";
              UserData.mobileNumber := "5550001111";
              UserData.password := "secret";
              UserData.condition := "Migraine";
              UserData.pastConditions := "None";
              UserData.previousTreatments := "None";
              UserData.allergies := "None" |}
           (Sample.storage [] []) Hfree eq_refl)))).
Defined.

(** A number that names an inherited property, on the seeded store. *)
Example createAccount_constructor_refused :
  Storage.users (Sample.storage [] []) !! "constructor" = None
  ∧ apiService.createAccount
      {| UserData.name := "Asha"; UserData.age := "31";
         UserData.email := "asha@example.com";
         UserData.mobileNumber := "constructor";
         UserData.password := "secret";
         UserData.condition := "Migraine";
         UserData.pastConditions := "None";
         UserData.previousTreatments := "None";
         UserData.allergies := "None" |}
      (Sample.storage [] [])
    = (None, Sample.storage [] []).
Proof. split; vm_compute; reflexivity. Qed.

(** X3. [logout] removes the session's current user and nothing else: the
    stored records and every other session key, the reminder markers among
    them, stay. After it the appointment list reads as empty and every
    repository operation fails without writing. *)
Theorem logout_ends_repository_access (st : Storage.t) :
  apiService.getCurrentUserMobileNumber (apiService.logout st) = None
  ∧ Storage.localStorage (apiService.logout st) = Storage.localStorage st
  ∧ (∀ id, Storage.session_get (App.reminded_key id) (apiService.logout st)
           = Storage.session_get (App.reminded_key id) st)
  ∧ apiService.getAppointments (apiService.logout st) = []
  ∧ apiService.getPatientDetails (apiService.logout st) = Return None
  ∧ (∀ d now, apiService.bookAppointment d now (apiService.logout st)
              = (Return false, apiService.logout st))
  ∧ (∀ i status, apiService.updateAppointmentStatus i status (apiService.logout st)
                 = (false, apiService.logout st))
  ∧ (∀ d, apiService.updatePatientDetails d (apiService.logout st)
          = (Return false, apiService.logout st)).
Proof.
  assert (Hcur : apiService.getCurrentUserMobileNumber (apiService.logout st) = None).
  { unfold apiService.getCurrentUserMobileNumber, apiService.logout,
      Storage.session_get. simpl. apply lookup_delete_eq. }
  split; [done|]. split; [done|]. split.
  { intros id. unfold apiService.logout, Storage.session_get. simpl.
    apply lookup_delete_ne. intros Heq. symmetry in Heq.
    by apply reminded_key_not_currentUser in Heq. }
  unfold apiService.getAppointments, apiService.getPatientDetails,
    apiService.bookAppointment, apiService.updateAppointmentStatus,
    apiService.updatePatientDetails.
  rewrite Hcur. simpl. done.
Qed.

(** X4. [_initializeDB] writes the store only when there is none: it leaves
    an existing store and the session as they are, running it twice is
    running it once, and on an empty browser it seeds the default user, who
    can then log in with the default password. *)
Theorem initializeDB_seeds_once (st : Storage.t) :
  apiService._initializeDB (apiService._initializeDB st)
  = apiService._initializeDB st
  ∧ Storage.sessionStorage (apiService._initializeDB st)
    = Storage.sessionStorage st
  ∧ match Storage.localStorage st with
    | Some _ => apiService._initializeDB st = st
    | None =>
        (apiService.login "1234567890" "password"
           (apiService._initializeDB st)).1
        = Some ("Mr Guna", "1234567890")
    end.
Proof.
  unfold apiService._initializeDB.
  destruct (Storage.localStorage st) as [us|] eqn:Hls; simpl.
  - by rewrite Hls.
  - split; [done|]. split; [done|].
    unfold apiService.login, Storage.users. simpl.
    by rewrite lookup_singleton_eq.
Qed.

(** ** Booking and status updates *)

Lemma getAppointments_current st m :
  apiService.getCurrentUserMobileNumber st = Some m →
  m ≠ "" →
  apiService.getAppointments st
  = match Storage.users st !! m with
    | Some u => default [] (User.appointments u)
    | None => []
    end.
Proof.
  intros Hm Hne. unfold apiService.getAppointments. rewrite Hm.
  apply truthy_Some_iff in Hne. by rewrite Hne.
Qed.

(** X5. [bookAppointment] by outcome. When it returns [true] the new
    appointment is appended to the current user's collection and no other
    user's record changes. When it returns [false] there is no current
    user, and when it throws the current user has no record or no
    collection; in both cases nothing is written. The session is never
    written. *)
Theorem bookAppointment_outcomes (d : Draft.t) (now : Z) (st : Storage.t) :
  Storage.sessionStorage (apiService.bookAppointment d now st).2
  = Storage.sessionStorage st
  ∧ match (apiService.bookAppointment d now st).1 with
    | Return true =>
        apiService.getAppointments (apiService.bookAppointment d now st).2
        = apiService.getAppointments st
          ++ [apiService.newAppointmentWithMeta d now]
        ∧ ∀ m, apiService.getCurrentUserMobileNumber st ≠ Some m →
               Storage.users (apiService.bookAppointment d now st).2 !! m
               = Storage.users st !! m
    | Return false =>
        (apiService.bookAppointment d now st).2 = st
        ∧ truthy (apiService.getCurrentUserMobileNumber st) = false
    | Throw =>
        (apiService.bookAppointment d now st).2 = st
        ∧ ∃ m, apiService.getCurrentUserMobileNumber st = Some m
               ∧ (Storage.users st !! m) ≫= User.appointments = None
    end.
Proof.
  split; [apply bookAppointment_sessionStorage|].
  destruct (current_user_cases st) as [Hno|(m & Hm & Hne)].
  - unfold apiService.bookAppointment. by rewrite Hno.
  - unfold apiService.bookAppointment.
    rewrite Hm. rewrite (proj2 (truthy_Some_iff m) Hne). simpl.
    destruct (Storage.users st !! m) as [u|] eqn:Hu; simpl.
    + destruct (User.appointments u) as [apps|] eqn:Ha; simpl.
      * split.
        -- rewrite (getAppointments_current st m Hm Hne), Hu, Ha. simpl.
           eapply getAppointments_put_users;
             [done|done|apply lookup_insert_eq|done].
        -- intros m' Hm'. unfold Storage.users at 1. simpl.
           apply lookup_insert_ne. congruence.
      * split; [done|]. exists m. by rewrite Hu.
    + split; [done|]. exists m. by rewrite Hu.
Qed.

(** [findIndex] finds the first match; [alter] at that index rewrites it and
    nothing else. *)
Lemma findIndex_from_split {A} (p : A → bool) l i :
  Exists (λ b, p b = true) l →
  ∃ l1 a l2,
    l = l1 ++ a :: l2 ∧ p a = true ∧ Forall (λ b, p b = false) l1
    ∧ findIndex_from p l i = i + Z.of_nat (List.length l1)
    ∧ ∀ f, alter f (List.length l1) l = l1 ++ f a :: l2.
Proof.
  intros Hex. revert i. induction l as [|x l IH]; intros i.
  - by apply Exists_nil in Hex.
  - simpl. destruct (p x) eqn:Hx.
    + exists [], x, l. simpl. repeat split; [done|constructor|lia].
    + apply Exists_cons in Hex as [Hex|Hex]; [congruence|].
      destruct (IH Hex (i + 1)) as (l1 & a & l2 & -> & Ha & Hall & Hk & Halt).
      exists (x :: l1), a, l2. simpl. repeat split; [done|by constructor|lia|].
      intros f. specialize (Halt f). unfold alter in *. simpl.
      by rewrite Halt.
Qed.

Lemma first_match_unique {A} (p : A → bool) l1 a l2 k1 b k2 :
  l1 ++ a :: l2 = k1 ++ b :: k2 →
  p a = true → p b = true →
  Forall (λ x, p x = false) l1 → Forall (λ x, p x = false) k1 →
  l1 = k1 ∧ a = b ∧ l2 = k2.
Proof.
  intros Heq Ha Hb Hl1. revert k1 Heq.
  induction Hl1 as [|x l1 Hx _ IH]; intros k1 Heq Hk1.
  - destruct k1 as [|y k1]; simpl in Heq.
    + by injection Heq as <- <-.
    + injection Heq as <- _. apply Forall_cons in Hk1 as [Hy _]. congruence.
  - destruct k1 as [|y k1]; simpl in Heq.
    + injection Heq as <- _. congruence.
    + injection Heq as <- Heq. apply Forall_cons in Hk1 as [_ Hk1].
      destruct (IH k1 Heq Hk1) as (-> & -> & ->). done.
Qed.

Lemma updateAppointmentStatus_found st m u apps i status l1 a l2 :
  apiService.getCurrentUserMobileNumber st = Some m →
  truthy (Some m) = true →
  Storage.users st !! m = Some u →
  User.appointments u = Some apps →
  apps = l1 ++ a :: l2 →
  Appointment.id a = i →
  Forall (λ b, Appointment.id b ≠ i) l1 →
  apiService.updateAppointmentStatus i status st
  = (true,
     Storage.put_users
       (<[m := User.with_appointments
                 (l1 ++ Appointment.with_status status a :: l2) u]>
          (Storage.users st)) st).
Proof.
  intros Hm Ht Hu Ha -> Hid Hl1.
  rewrite (updateAppointmentStatus_unfold st m u (l1 ++ a :: l2)) by done.
  assert (Hex : Exists (λ b, (Appointment.id b =? i) = true) (l1 ++ a :: l2)).
  { apply Exists_app. right. left. by apply Z.eqb_eq. }
  destruct (findIndex_from_split _ _ 0 Hex)
    as (k1 & b & k2 & Hsplit & Hb & Hk1 & Hidx & Halt).
  apply no_appointment_no_match in Hl1.
  apply Z.eqb_eq in Hid.
  destruct (first_match_unique _ _ _ _ _ _ _ Hsplit Hid Hb Hl1 Hk1)
    as (<- & <- & <-).
  unfold findIndex. simpl. rewrite Hidx.
  destruct (0 + Z.of_nat (List.length l1) =? -1) eqn:Hneg;
    [apply Z.eqb_eq in Hneg; lia|].
  replace (Z.to_nat (0 + Z.of_nat (List.length l1))) with (List.length l1) by lia.
  by rewrite Halt.
Qed.

Lemma first_match_split (apps : list Appointment.t) i :
  (∃ a, a ∈ apps ∧ Appointment.id a = i) →
  ∃ l1 a l2, apps = l1 ++ a :: l2 ∧ Appointment.id a = i
             ∧ Forall (λ b, Appointment.id b ≠ i) l1.
Proof.
  intros (a & Hin & Hid).
  assert (Hex : Exists (λ b, (Appointment.id b =? i) = true) apps).
  { apply Exists_exists. exists a. split; [done|]. by apply Z.eqb_eq. }
  destruct (findIndex_from_split _ _ 0 Hex) as (l1 & b & l2 & -> & Hb & Hall & _).
  exists l1, b, l2. split; [done|]. split; [by apply Z.eqb_eq|].
  eapply Forall_impl; [exact Hall|]. intros x Hx. by apply Z.eqb_neq.
Qed.

(** X6. A status update of a stored id succeeds and rewrites the status of
    the first appointment with that id, in list order, and of no other: the
    appointments before and after it, a later one with the same id among
    them, and all other fields are kept, as are the session and the records
    of other users. *)
Theorem updateAppointmentStatus_first_match
    (st : Storage.t) (appointmentId : Z) (status : Status) :
  hasAppointment st appointmentId →
  ∃ l1 a l2,
    apiService.getAppointments st = l1 ++ a :: l2
    ∧ Appointment.id a = appointmentId
    ∧ Forall (λ b, Appointment.id b ≠ appointmentId) l1
    ∧ (apiService.updateAppointmentStatus appointmentId status st).1 = true
    ∧ apiService.getAppointments
        (apiService.updateAppointmentStatus appointmentId status st).2
      = l1 ++ Appointment.with_status status a :: l2
    ∧ Storage.sessionStorage
        (apiService.updateAppointmentStatus appointmentId status st).2
      = Storage.sessionStorage st
    ∧ ∀ m, apiService.getCurrentUserMobileNumber st ≠ Some m →
           Storage.users
             (apiService.updateAppointmentStatus appointmentId status st).2 !! m
           = Storage.users st !! m.
Proof.
  intros Hhas.
  destruct (current_collection st) as [(m & u & apps & Hm & Ht & Hu & Ha & Hg)|[Hg _]].
  2:{ destruct Hhas as (a & Hin & _). rewrite Hg in Hin.
      by apply elem_of_nil in Hin. }
  unfold hasAppointment in Hhas. rewrite Hg in Hhas.
  destruct (first_match_split apps appointmentId Hhas)
    as (l1 & a & l2 & Happs & Hid & Hl1).
  exists l1, a, l2. rewrite Hg.
  rewrite (updateAppointmentStatus_found st m u apps appointmentId status l1 a l2)
    by done.
  simpl. repeat split; [done|done|done| |].
  - eapply getAppointments_put_users;
      [done|by apply truthy_Some_iff|apply lookup_insert_eq|done].
  - intros m' Hm'. unfold Storage.users at 1. simpl.
    apply lookup_insert_ne. congruence.
Qed.

(** Two stored appointments share id 5. *)
Lemma updateAppointmentStatus_first_match_witness :
  hasAppointment
    (Sample.storage
       [Sample.appointment 5 Sample.tomorrow (Some upcoming);
        Sample.appointment 6 Sample.tomorrow (Some upcoming);
        Sample.appointment 5 Sample.yesterday (Some upcoming)] []) 5
  ∧ ∃ l1 a l2,
      apiService.getAppointments
        (Sample.storage
           [Sample.appointment 5 Sample.tomorrow (Some upcoming);
            Sample.appointment 6 Sample.tomorrow (Some upcoming);
            Sample.appointment 5 Sample.yesterday (Some upcoming)] [])
      = l1 ++ a :: l2
      ∧ apiService.getAppointments
          (apiService.updateAppointmentStatus 5 completed
             (Sample.storage
                [Sample.appointment 5 Sample.tomorrow (Some upcoming);
                 Sample.appointment 6 Sample.tomorrow (Some upcoming);
                 Sample.appointment 5 Sample.yesterday (Some upcoming)] [])).2
        = l1 ++ Appointment.with_status completed a :: l2.
Proof.
  assert (Hhas : hasAppointment
    (Sample.storage
       [Sample.appointment 5 Sample.tomorrow (Some upcoming);
        Sample.appointment 6 Sample.tomorrow (Some upcoming);
        Sample.appointment 5 Sample.yesterday (Some upcoming)] []) 5).
  { exists (Sample.appointment 5 Sample.tomorrow (Some upcoming)).
    split; [|reflexivity]. vm_compute. left. }
  split; [exact Hhas|].
  destruct (updateAppointmentStatus_first_match _ 5 completed Hhas)
    as (l1 & a & l2 & H1 & _ & _ & _ & H2 & _).
  by exists l1, a, l2.
Defined.

(** The update reaches the first of two appointments with one id. *)
Example updateAppointmentStatus_duplicate_ids :
  apiService.getAppointments
    (apiService.updateAppointmentStatus 5 completed
       (Sample.storage
          [Sample.appointment 5 Sample.tomorrow (Some upcoming);
           Sample.appointment 6 Sample.tomorrow (Some upcoming);
           Sample.appointment 5 Sample.yesterday (Some upcoming)] [])).2
  = [Sample.appointment 5 Sample.tomorrow (Some completed);
     Sample.appointment 6 Sample.tomorrow (Some upcoming);
     Sample.appointment 5 Sample.yesterday (Some upcoming)].
Proof. vm_compute. reflexivity. Qed.

Lemma bookAppointment_true_inv d now st :
  (apiService.bookAppointment d now st).1 = Return true →
  ∃ m u apps,
    apiService.getCurrentUserMobileNumber st = Some m ∧ m ≠ ""
    ∧ Storage.users st !! m = Some u ∧ User.appointments u = Some apps.
Proof.
  destruct (current_user_cases st) as [Hno|(m & Hm & Hne)].
  - unfold apiService.bookAppointment. by rewrite Hno.
  - unfold apiService.bookAppointment.
    rewrite Hm, (proj2 (truthy_Some_iff m) Hne). simpl.
    destruct (Storage.users st !! m) as [u|] eqn:Hu; [|done].
    destruct (User.appointments u) as [apps|] eqn:Ha; [|done].
    intros _. by exists m, u, apps.
Qed.

(** X7. An appointment just booked can be confirmed: after a successful
    [bookAppointment] at clock reading [now], a status update for the id
    [now] succeeds; and when no earlier appointment of the collection has
    that id, the appointment it rewrites is the new one, at the end of the
    collection. *)
Theorem bookAppointment_then_update (d : Draft.t) (now : Z) (st : Storage.t) :
  (apiService.bookAppointment d now st).1 = Return true →
  (apiService.updateAppointmentStatus now confirmed
     (apiService.bookAppointment d now st).2).1 = true
  ∧ (Forall (λ a, Appointment.id a ≠ now) (apiService.getAppointments st) →
     apiService.getAppointments
       (apiService.updateAppointmentStatus now confirmed
          (apiService.bookAppointment d now st).2).2
     = apiService.getAppointments st
       ++ [Appointment.with_status confirmed
             (apiService.newAppointmentWithMeta d now)]).
Proof.
  intros Hbook.
  destruct (bookAppointment_true_inv d now st Hbook)
    as (m & u & apps & Hm & Hne & Hu & Ha).
  rewrite (bookAppointment_unfold st m u apps d now) by done. simpl.
  set (new := apiService.newAppointmentWithMeta d now).
  set (u' := User.with_appointments (apps ++ [new]) u).
  set (st' := Storage.put_users (<[m := u']> (Storage.users st)) st).
  assert (Hm' : apiService.getCurrentUserMobileNumber st' = Some m) by done.
  assert (Ht : truthy (Some m) = true) by by apply truthy_Some_iff.
  assert (Hu' : Storage.users st' !! m = Some u') by apply lookup_insert_eq.
  assert (Ha' : User.appointments u' = Some (apps ++ [new])) by done.
  split.
  - destruct (first_match_split (apps ++ [new]) now) as (l1 & a & l2 & Hsp & Hid & Hl1).
    { exists new. split; [|done]. apply elem_of_app. right. by left. }
    by rewrite (updateAppointmentStatus_found st' m u' (apps ++ [new]) now
                  confirmed l1 a l2).
  - intros Hfresh.
    rewrite (getAppointments_current st m Hm Hne), Hu, Ha in Hfresh |- *.
    simpl in Hfresh |- *.
    rewrite (updateAppointmentStatus_found st' m u' (apps ++ [new]) now
               confirmed apps new []) by done.
    simpl. eapply getAppointments_put_users;
      [done|done|apply lookup_insert_eq|done].
Qed.

(** A booking on an empty collection, then its confirmation. *)
Lemma bookAppointment_then_update_witness :
  (apiService.bookAppointment Sample.draft Sample.now (Sample.storage [] [])).1
  = Return true
  ∧ (apiService.updateAppointmentStatus Sample.now confirmed
       (apiService.bookAppointment Sample.draft Sample.now
          (Sample.storage [] [])).2).1 = true.
Proof.
  assert (Hbook :
    (apiService.bookAppointment Sample.draft Sample.now (Sample.storage [] [])).1
    = Return true) by reflexivity.
  split; [exact Hbook|].
  apply (bookAppointment_then_update Sample.draft Sample.now
           (Sample.storage [] []) Hbook).
Defined.

(** X8. Once an appointment is confirmed or completed it is out of the
    reminder selection for good, marker or no marker: when the ids of the
    collection are distinct and the status written is not ['upcoming'], no
    later selection on the updated storage returns an appointment with that
    id. *)
Theorem updated_appointment_not_selected {P : Platform}
    (st : Storage.t) (appointmentId : Z) (status : Status) :
  hasAppointment st appointmentId →
  NoDup (Appointment.id <$> apiService.getAppointments st) →
  status ≠ upcoming →
  ∀ now b,
    App.selectReminder now
      (apiService.updateAppointmentStatus appointmentId status st).2 = Some b →
    Appointment.id b ≠ appointmentId.
Proof.
  intros Hhas Hnodup Hstatus now b Hsel.
  destruct (current_collection st) as [(m & u & apps & Hm & Ht & Hu & Ha & Hg)|[Hg _]].
  2:{ destruct Hhas as (a & Hin & _). rewrite Hg in Hin.
      by apply elem_of_nil in Hin. }
  unfold hasAppointment in Hhas. rewrite Hg in Hhas, Hnodup.
  destruct (first_match_split apps appointmentId Hhas)
    as (l1 & a & l2 & Happs & Hid & Hl1).
  rewrite (updateAppointmentStatus_found st m u apps appointmentId status l1 a l2)
    in Hsel by done.
  simpl in Hsel. unfold App.selectReminder in Hsel.
  erewrite getAppointments_put_users in Hsel;
    [|done|by apply truthy_Some_iff|apply lookup_insert_eq|done].
  apply find_Some_first in Hsel as (Hb & k1 & k2 & Hsplit & _).
  apply isUpcomingUnreminded_Eligible in Hb as (Hup & _).
  assert (Hin : b ∈ l1 ++ Appointment.with_status status a :: l2).
  { rewrite Hsplit. apply elem_of_app. right. by left. }
  rewrite Happs, fmap_app, fmap_cons in Hnodup.
  apply NoDup_app in Hnodup as (_ & Hdisj & Hright).
  apply NoDup_cons in Hright as [Hnotin _].
  apply elem_of_app in Hin as [Hin|Hin].
  - intros Heq. apply (Hdisj (Appointment.id b)).
    + by apply list_elem_of_fmap_2.
    + rewrite Heq, <- Hid. by left.
  - apply elem_of_cons in Hin as [->|Hin].
    + simpl in Hup. congruence.
    + intros Heq. apply Hnotin. rewrite Hid, <- Heq.
      by apply list_elem_of_fmap_2.
Qed.

(** Appointment 5 is confirmed; the next selection passes on to 7. *)
Lemma updated_appointment_not_selected_witness :
  hasAppointment
    (Sample.storage
       [Sample.appointment 5 Sample.tomorrow (Some upcoming);
        Sample.appointment 7 Sample.tomorrow (Some upcoming)] []) 5
  ∧ NoDup
      (Appointment.id
         <$> apiService.getAppointments
               (Sample.storage
                  [Sample.appointment 5 Sample.tomorrow (Some upcoming);
                   Sample.appointment 7 Sample.tomorrow (Some upcoming)] []))
  ∧ App.selectReminder (P := UTC.platform) Sample.now
      (apiService.updateAppointmentStatus 5 confirmed
         (Sample.storage
            [Sample.appointment 5 Sample.tomorrow (Some upcoming);
             Sample.appointment 7 Sample.tomorrow (Some upcoming)] [])).2
    = Some (Sample.appointment 7 Sample.tomorrow (Some upcoming))
  ∧ Appointment.id (Sample.appointment 7 Sample.tomorrow (Some upcoming)) ≠ 5.
Proof.
  assert (Hhas : hasAppointment
    (Sample.storage
       [Sample.appointment 5 Sample.tomorrow (Some upcoming);
        Sample.appointment 7 Sample.tomorrow (Some upcoming)] []) 5).
  { exists (Sample.appointment 5 Sample.tomorrow (Some upcoming)).
    split; [|reflexivity]. vm_compute. left. }
  assert (Hnodup : NoDup
      (Appointment.id
         <$> apiService.getAppointments
               (Sample.storage
                  [Sample.appointment 5 Sample.tomorrow (Some upcoming);
                   Sample.appointment 7 Sample.tomorrow (Some upcoming)] []))).
  { vm_compute. apply NoDup_cons. split.
    - rewrite list_elem_of_singleton. discriminate.
    - apply NoDup_singleton. }
  assert (Hsel : App.selectReminder (P := UTC.platform) Sample.now
      (apiService.updateAppointmentStatus 5 confirmed
         (Sample.storage
            [Sample.appointment 5 Sample.tomorrow (Some upcoming);
             Sample.appointment 7 Sample.tomorrow (Some upcoming)] [])).2
    = Some (Sample.appointment 7 Sample.tomorrow (Some upcoming))).
  { vm_compute. reflexivity. }
  split; [exact Hhas|]. split; [exact Hnodup|]. split; [exact Hsel|].
  refine (updated_appointment_not_selected (P := UTC.platform) _ 5 confirmed
            Hhas Hnodup _ Sample.now _ Hsel).
  discriminate.
Defined.

(** X9. The profile round trip: after a successful [updatePatientDetails],
    [getPatientDetails] returns the details just written; the appointments,
    the session, and in every record the number, password, appointments and
    analytics are what they were. *)
Theorem updatePatientDetails_round_trip
    (updatedDetails : UpdatedDetails.t) (st : Storage.t) :
  (apiService.updatePatientDetails updatedDetails st).1 = Return true →
  apiService.getPatientDetails
    (apiService.updatePatientDetails updatedDetails st).2
  = Return (Some updatedDetails)
  ∧ apiService.getAppointments
      (apiService.updatePatientDetails updatedDetails st).2
    = apiService.getAppointments st
  ∧ Storage.sessionStorage (apiService.updatePatientDetails updatedDetails st).2
    = Storage.sessionStorage st
  ∧ ∀ m u, Storage.users st !! m = Some u →
      ∃ u', Storage.users
              (apiService.updatePatientDetails updatedDetails st).2 !! m
            = Some u'
            ∧ User.mobileNumber u' = User.mobileNumber u
            ∧ User.password u' = User.password u
            ∧ User.appointments u' = User.appointments u
            ∧ User.analytics u' = User.analytics u.
Proof.
  destruct (current_user_cases st) as [Hno|(m & Hm & Hne)].
  { unfold apiService.updatePatientDetails. by rewrite Hno. }
  pose proof (proj2 (truthy_Some_iff m) Hne) as Ht.
  unfold apiService.updatePatientDetails at 1.
  rewrite Hm, Ht. simpl.
  destruct (Storage.users st !! m) as [u|] eqn:Hu; [|done].
  intros _. unfold apiService.updatePatientDetails.
  rewrite Hm, Ht, Hu. simpl.
  split; [|split; [|split; [done|]]].
  - unfold apiService.getPatientDetails.
    change (apiService.getCurrentUserMobileNumber (Storage.put_users _ st))
      with (apiService.getCurrentUserMobileNumber st).
    rewrite Hm, Ht. simpl. unfold Storage.users at 1. simpl.
    rewrite lookup_insert_eq. by destruct updatedDetails.
  - rewrite (getAppointments_current st m Hm Hne), Hu.
    destruct (User.appointments u) as [apps|] eqn:Ha.
    + eapply getAppointments_put_users;
        [done|done|apply lookup_insert_eq|done].
    + unfold apiService.getAppointments.
      change (apiService.getCurrentUserMobileNumber (Storage.put_users _ st))
        with (apiService.getCurrentUserMobileNumber st).
      rewrite Hm, Ht. simpl. unfold Storage.users at 1. simpl.
      rewrite lookup_insert_eq. simpl. by rewrite Ha.
  - intros m' u0 Hu0. unfold Storage.users at 1. simpl.
    destruct (decide (m = m')) as [<-|Hmm].
    + rewrite lookup_insert_eq. eexists. split; [done|].
      rewrite Hu in Hu0. by injection Hu0 as <-.
    + rewrite lookup_insert_ne by done. by exists u0.
Qed.

(** The default user edits the profile. *)
Lemma updatePatientDetails_round_trip_witness :
  (apiService.updatePatientDetails
     {| UpdatedDetails.name := "Mr Guna"; UpdatedDetails.age := Str "46";
        UpdatedDetails.email := "guna@example.com";
        UpdatedDetails.condition := "Chronic Back Pain";
        UpdatedDetails.medicalHistory :=
          {| User.pastConditions := "Sciatica";
             User.previousTreatments := "Physical Therapy";
             User.allergies := "Pollen" |} |}
     (Sample.storage [] [])).1 = Return true
  ∧ apiService.getPatientDetails
      (apiService.updatePatientDetails
         {| UpdatedDetails.name := "Mr Guna"; UpdatedDetails.age := Str "46";
            UpdatedDetails.email := "guna@example.com";
            UpdatedDetails.condition := "Chronic Back Pain";
            UpdatedDetails.medicalHistory :=
              {| User.pastConditions := "Sciatica";
                 User.previousTreatments := "Physical Therapy";
                 User.allergies := "Pollen" |} |}
         (Sample.storage [] [])).2
    = Return
        (Some
           {| UpdatedDetails.name := "Mr Guna"; UpdatedDetails.age := Str "46";
              UpdatedDetails.email := "guna@example.com";
              UpdatedDetails.condition := "Chronic Back Pain";
              UpdatedDetails.medicalHistory :=
                {| User.pastConditions := "Sciatica";
                   User.previousTreatments := "Physical Therapy";
                   User.allergies := "Pollen" |} |}).
Proof.
  assert (Hok :
    (apiService.updatePatientDetails
       {| UpdatedDetails.name := "Mr Guna"; UpdatedDetails.age := Str "46";
          UpdatedDetails.email := "guna@example.com";
          UpdatedDetails.condition := "Chronic Back Pain";
          UpdatedDetails.medicalHistory :=
            {| User.pastConditions := "Sciatica";
               User.previousTreatments := "Physical Therapy";
               User.allergies := "Pollen" |} |}
       (Sample.storage [] [])).1 = Return true) by reflexivity.
  split; [exact Hok|].
  apply (updatePatientDetails_round_trip _ (Sample.storage [] []) Hok).
Defined.

(** ** Reminders, one id at a time *)

Lemma reminded_key_inj i j : App.reminded_key i = App.reminded_key j → i = j.
Proof.
  unfold App.reminded_key, number_to_string. simpl. intros [= Heq].
  by apply (inj pretty).
Qed.

Lemma find_Forall2 {A} (p q : A → bool) l k :
  Forall2 (λ x y, p x = q y ∧ (q y = true → x = y)) l k →
  find p l = find q k.
Proof.
  induction 1 as [|x y l k [Hpq Hxy] _ IH]; [done|]. simpl.
  rewrite Hpq. destruct (q y) eqn:Hq; [|done]. by rewrite Hxy.
Qed.

(** A status update either fails and writes nothing, or rewrites the first
    appointment with the id and keeps the session. *)
Lemma updateAppointmentStatus_cases st i status :
  apiService.updateAppointmentStatus i status st = (false, st)
  ∨ ∃ l1 a l2,
      apiService.getAppointments st = l1 ++ a :: l2
      ∧ Appointment.id a = i
      ∧ apiService.getAppointments
          (apiService.updateAppointmentStatus i status st).2
        = l1 ++ Appointment.with_status status a :: l2
      ∧ Storage.sessionStorage (apiService.updateAppointmentStatus i status st).2
        = Storage.sessionStorage st.
Proof.
  destruct (current_collection st)
    as [(m & u & apps & Hm & Ht & Hu & Ha & Hg)|[_ Hf]]; [|by left].
  destruct (decide (Exists (λ b, Appointment.id b = i) apps)) as [Hex|Hnex].
  - right. apply Exists_exists in Hex.
    destruct (first_match_split apps i Hex) as (l1 & a & l2 & Happs & Hid & Hl1).
    exists l1, a, l2. rewrite Hg.
    rewrite (updateAppointmentStatus_found st m u apps i status l1 a l2) by done.
    simpl. repeat split; [done|done|].
    eapply getAppointments_put_users;
      [done|by apply truthy_Some_iff|apply lookup_insert_eq|done].
  - left. apply not_Exists_Forall in Hnex; [|intros b; apply _].
    rewrite (updateAppointmentStatus_unfold st m u apps) by done.
    unfold findIndex.
    by rewrite (findIndex_from_absent _ _ _ (no_appointment_no_match _ _ Hnex)).
Qed.

Lemma getAppointments_session_set st k v :
  k ≠ "currentUser" →
  apiService.getAppointments (Storage.session_set k v st)
  = apiService.getAppointments st.
Proof.
  intros Hk. unfold apiService.getAppointments,
    apiService.getCurrentUserMobileNumber, Storage.session_get. simpl.
  by rewrite lookup_insert_ne.
Qed.

(** The callback of the reminder check after the marker of [id] is written:
    appointments with that id are rejected, all others are judged as
    before. *)
Lemma isUpcomingUnreminded_after_mark {P : Platform} now st st' id b :
  Storage.sessionStorage st'
  = <[App.reminded_key id := "true"]> (Storage.sessionStorage st) →
  App.isUpcomingUnreminded now st' b
  = App.isUpcomingUnreminded now st b && negb (Appointment.id b =? id).
Proof.
  intros Hs. unfold App.isUpcomingUnreminded, Storage.session_get. rewrite Hs.
  destruct (Z.eqb_spec (Appointment.id b) id) as [->|Hne]; simpl.
  - rewrite lookup_insert_eq. simpl. by rewrite !andb_false_r.
  - rewrite lookup_insert_ne; [by rewrite andb_true_r|].
    intros Heq. apply reminded_key_inj in Heq. congruence.
Qed.

(** X10. Markers act one id at a time. After a surfaced reminder for
    appointment [a] is confirmed, rescheduled or dismissed, the next reminder
    check selects the first appointment of the earlier list that was
    eligible before and has another id than [a]: resolving one reminder
    hides the appointments with its id and no others. *)
Theorem resolve_next_selection {P : Platform}
    (r : Resolution) (s : App.t) (a : Appointment.t) (now : Z) :
  App.reminderAppointment s = Some a →
  App.selectReminder now (App.storage (resolve r s))
  = find (λ b, App.isUpcomingUnreminded now (App.storage s) b
               && negb (Appointment.id b =? Appointment.id a))
         (apiService.getAppointments (App.storage s)).
Proof.
  intros Hr.
  pose proof (reminded_key_not_currentUser (Appointment.id a)) as Hkey.
  assert (Hmark : ∀ st,
    App.selectReminder now
      (Storage.session_set (App.reminded_key (Appointment.id a)) "true" st)
    = find (λ b, App.isUpcomingUnreminded now st b
                 && negb (Appointment.id b =? Appointment.id a))
           (apiService.getAppointments st)).
  { intros st. unfold App.selectReminder.
    rewrite getAppointments_session_set by done.
    apply find_Forall2. apply Forall2_same_length_lookup. split; [done|].
    intros i x y Hx Hy. rewrite Hx in Hy. injection Hy as <-.
    split; [|done]. by apply isUpcomingUnreminded_after_mark. }
  destruct r as [now'| |]; simpl.
  - unfold App.handleConfirmReminder. rewrite Hr.
    destruct (apiService.updateAppointmentStatus (Appointment.id a) confirmed
                (App.storage s)) as [result st'] eqn:Hupd.
    simpl. rewrite Hmark.
    destruct (updateAppointmentStatus_cases (App.storage s) (Appointment.id a)
                confirmed) as [Hfail|(l1 & x & l2 & Hg & Hid & Hg' & Hs)].
    + rewrite Hupd in Hfail. by injection Hfail as _ <-.
    + rewrite Hupd in Hg', Hs. simpl in Hg', Hs. rewrite Hg, Hg'.
      apply find_Forall2. apply Forall2_app.
      * apply Forall2_same_length_lookup. split; [done|].
        intros i y z Hy Hz. rewrite Hy in Hz. injection Hz as <-.
        split; [|done]. unfold App.isUpcomingUnreminded, Storage.session_get.
        by rewrite Hs.
      * constructor.
        -- simpl. rewrite Hid, Z.eqb_refl. simpl. rewrite !andb_false_r.
           split; [done|discriminate].
        -- apply Forall2_same_length_lookup. split; [done|].
           intros i y z Hy Hz. rewrite Hy in Hz. injection Hz as <-.
           split; [|done]. unfold App.isUpcomingUnreminded, Storage.session_get.
           by rewrite Hs.
  - unfold App.handleRescheduleReminder, App.handleNavigate. rewrite Hr.
    case_bool_decide; apply Hmark.
  - unfold App.handleDismissReminder. rewrite Hr. apply Hmark.
Qed.

(** Of the eligible appointments 5 and 7, 5 is dismissed and 7 comes
    next. *)
Lemma resolve_next_selection_witness :
  App.reminderAppointment
    (Sample.app
       (Sample.storage
          [Sample.appointment 5 Sample.tomorrow (Some upcoming);
           Sample.appointment 7 Sample.tomorrow (Some upcoming)] [])
       (Some (Sample.appointment 5 Sample.tomorrow (Some upcoming))))
  = Some (Sample.appointment 5 Sample.tomorrow (Some upcoming))
  ∧ App.selectReminder (P := UTC.platform) Sample.now
      (App.storage
         (resolve Dismiss
            (Sample.app
               (Sample.storage
                  [Sample.appointment 5 Sample.tomorrow (Some upcoming);
                   Sample.appointment 7 Sample.tomorrow (Some upcoming)] [])
               (Some (Sample.appointment 5 Sample.tomorrow (Some upcoming))))))
    = find (λ b, App.isUpcomingUnreminded (P := UTC.platform) Sample.now
                   (Sample.storage
                      [Sample.appointment 5 Sample.tomorrow (Some upcoming);
                       Sample.appointment 7 Sample.tomorrow (Some upcoming)] []) b
                 && negb (Appointment.id b =? 5))
           [Sample.appointment 5 Sample.tomorrow (Some upcoming);
            Sample.appointment 7 Sample.tomorrow (Some upcoming)].
Proof.
  split; [reflexivity|].
  apply (resolve_next_selection (P := UTC.platform) Dismiss
           (Sample.app
              (Sample.storage
                 [Sample.appointment 5 Sample.tomorrow (Some upcoming);
                  Sample.appointment 7 Sample.tomorrow (Some upcoming)] [])
              (Some (Sample.appointment 5 Sample.tomorrow (Some upcoming))))
           (Sample.appointment 5 Sample.tomorrow (Some upcoming)) Sample.now).
  reflexivity.
Defined.

(** ** The component under any calls of its handlers *)

Lemma queueInvariant_same s s' :
  App.notifications s' = App.notifications s →
  App.timers s' = App.timers s →
  queueInvariant s → queueInvariant s'.
Proof. intros Hn Ht. unfold queueInvariant. by rewrite Hn, Ht. Qed.

Lemma queueInvariant_perform {P : Platform} h s :
  queueInvariant s → queueInvariant (perform h s).
Proof.
  intros Hinv. destruct h as [u now|u now|p| |now|now| | |now|msg now|now];
    simpl.
  - unfold App.handleLoginSuccess, App.authStatusEffect.
    repeat case_bool_decide; try done.
    by apply queueInvariant_checkUpcomingAppointments.
  - unfold App.handleCreateSuccess, App.authStatusEffect.
    pose proof (queueInvariant_addNotification now
                  (String.append "Welcome, " (String.append u.1 "!")) s Hinv)
      as Hadd.
    repeat case_bool_decide; try done.
    apply queueInvariant_checkUpcomingAppointments.
    eapply queueInvariant_same; [| |exact Hadd]; done.
  - unfold App.handleNavigate. by case_bool_decide.
  - done.
  - by apply queueInvariant_addNotification.
  - by apply (queueInvariant_resolve (Confirm now)).
  - by apply (queueInvariant_resolve Reschedule).
  - by apply (queueInvariant_resolve Dismiss).
  - pose proof (queueInvariant_addNotification now
                  "Appointment booked successfully!" s Hinv) as Hadd.
    eapply queueInvariant_same; [| |exact Hadd]; done.
  - by apply queueInvariant_addNotification.
  - by apply queueInvariant_runTimers.
Qed.

Lemma queueInvariant_performAll {P : Platform} hs s :
  queueInvariant s → queueInvariant (performAll hs s).
Proof.
  revert s. induction hs as [|h hs IH]; intros s Hinv; [done|].
  simpl. apply IH. by apply queueInvariant_perform.
Qed.

(** X11. No notification outlives its 3000 ms, whatever the component did
    before: after any calls of the handlers and runs of the event loop on a
    fresh component, a run of the event loop at clock reading [t] leaves in
    the queue only entries added less than 3000 ms before [t], with every
    one of them still covered by a pending timer. *)
Theorem notifications_expire_in_every_run {P : Platform}
    (st : Storage.t) (hs : list Handler) (t : Z) :
  Forall (λ n, t < Notification.id n + 3000)
    (App.notifications (App.runTimers t (performAll hs (App.init st))))
  ∧ queueInvariant (App.runTimers t (performAll hs (App.init st))).
Proof.
  pose proof (queueInvariant_performAll hs _ (queueInvariant_init st)) as Hinv.
  split; [|by apply queueInvariant_runTimers].
  rewrite runTimers_notifications by done.
  apply Forall_forall. intros n Hn.
  apply list_elem_of_In, List.filter_In in Hn as [_ Hlt].
  by apply Z.ltb_lt.
Qed.

Lemma perform_reminder {P : Platform} h s :
  match App.reminderAppointment (perform h s) with
  | Some a =>
      App.reminderAppointment s = Some a
      ∨ (entersSession h = true ∧ Appointment.status a = Some upcoming)
  | None => True
  end.
Proof.
  assert (Hcheck : ∀ now s0 s1,
    App.storage s1 = App.storage s0 →
    App.reminderAppointment s1 = App.reminderAppointment s0 →
    match App.reminderAppointment (App.checkUpcomingAppointments now s1) with
    | Some a => App.reminderAppointment s0 = Some a
                ∨ Appointment.status a = Some upcoming
    | None => True
    end).
  { intros now s0 s1 Hst Hrem. unfold App.checkUpcomingAppointments.
    destruct (App.selectReminder now (App.storage s1)) as [b|] eqn:Hsel; simpl.
    - right. unfold App.selectReminder in Hsel.
      apply find_Some_first in Hsel as [Hb _].
      by apply isUpcomingUnreminded_Eligible in Hb as (Hup & _).
    - rewrite Hrem. destruct (App.reminderAppointment s0); [by left|done]. }
  destruct h as [u now|u now|p| |now|now| | |now|msg now|now]; simpl.
  - unfold App.handleLoginSuccess, App.authStatusEffect.
    repeat case_bool_decide; simpl;
      try (destruct (App.reminderAppointment s); [by left|done]).
    set (s1 := App.setAuthStatus _ _).
    specialize (Hcheck now s s1 eq_refl eq_refl).
    destruct (App.reminderAppointment _); [|done].
    destruct Hcheck; [by left|by right].
  - unfold App.handleCreateSuccess, App.authStatusEffect.
    repeat case_bool_decide; simpl;
      try (destruct (App.reminderAppointment s); [by left|done]).
    set (s1 := App.setAuthStatus _ _).
    specialize (Hcheck now s s1 eq_refl eq_refl).
    destruct (App.reminderAppointment _); [|done].
    destruct Hcheck; [by left|by right].
  - unfold App.handleNavigate. case_bool_decide; simpl;
      (destruct (App.reminderAppointment s); [by left|done]).
  - simpl. destruct (App.reminderAppointment s); [by left|done].
  - simpl. destruct (App.reminderAppointment s); [by left|done].
  - unfold App.handleConfirmReminder.
    destruct (App.reminderAppointment s) as [a|] eqn:Hr; [|by rewrite Hr].
    by destruct (apiService.updateAppointmentStatus _ _ _).
  - unfold App.handleRescheduleReminder.
    destruct (App.reminderAppointment s) as [a|] eqn:Hr; [|by rewrite Hr].
    done.
  - unfold App.handleDismissReminder.
    destruct (App.reminderAppointment s) as [a|] eqn:Hr; [|by rewrite Hr].
    done.
  - simpl. destruct (App.reminderAppointment s); [by left|done].
  - simpl. destruct (App.reminderAppointment s); [by left|done].
  - unfold App.runTimers.
    assert (Hfold : ∀ tms s0,
      App.reminderAppointment
        (fold_left (λ acc tm, App.expire (Timer.target tm) acc) tms s0)
      = App.reminderAppointment s0).
    { induction tms as [|tm tms IH]; intros s0; [done|]. simpl. by rewrite IH. }
    rewrite Hfold. simpl. destruct (App.reminderAppointment s); [by left|done].
Qed.

(** X12. The reminder banner only ever shows an appointment whose status
    was ['upcoming'] when it was selected, and only a login surfaces one:
    after any calls of the handlers on a fresh component the reminder, if
    any, has status ['upcoming']; and a handler other than the two that
    enter the session leaves the reminder as it is or clears it. *)
Theorem reminder_surfaces_only_at_login {P : Platform}
    (st : Storage.t) (hs : list Handler) :
  match App.reminderAppointment (performAll hs (App.init st)) with
  | Some a => Appointment.status a = Some upcoming
  | None => True
  end
  ∧ ∀ h s,
      entersSession h = false →
      App.reminderAppointment (perform h s) = App.reminderAppointment s
      ∨ App.reminderAppointment (perform h s) = None.
Proof.
  split.
  - assert (Hgen : ∀ s,
      match App.reminderAppointment s with
      | Some a => Appointment.status a = Some upcoming
      | None => True
      end →
      match App.reminderAppointment (performAll hs s) with
      | Some a => Appointment.status a = Some upcoming
      | None => True
      end).
    { induction hs as [|h hs IH]; intros s Hs; [done|].
      simpl. apply IH. pose proof (perform_reminder h s) as Hstep.
      destruct (App.reminderAppointment (perform h s)) as [a|]; [|done].
      destruct Hstep as [Hsame|[_ Hup]]; [by rewrite Hsame in Hs|done]. }
    by apply Hgen.
  - intros h s Hh. pose proof (perform_reminder h s) as Hstep.
    destruct (App.reminderAppointment (perform h s)) as [a|]; [|by right].
    destruct Hstep as [Hsame|[Henter _]]; [by left|congruence].
Qed.

(** X13. Back returns to the page the last navigation left, and keeps no
    longer history: after [handleNavigate] to another page,
    [handleNavigateBack] shows the page shown before; navigating to the
    page already shown changes nothing, so it does not overwrite the page
    to go back to; and a second Back in a row stays where the first one
    arrived. Neither handler touches the storage, the queue or the
    reminder. *)
Theorem navigate_back_returns (page : Page.t) (s : App.t) :
  App.currentPage (App.handleNavigateBack (App.handleNavigate page s))
  = (if bool_decide (page = App.currentPage s)
     then App.previousPage s else App.currentPage s)
  ∧ (if bool_decide (page = App.currentPage s)
     then App.handleNavigate page s = s
     else App.currentPage (App.handleNavigate page s) = page)
  ∧ App.handleNavigateBack (App.handleNavigateBack s) = App.handleNavigateBack s
  ∧ App.storage (App.handleNavigateBack (App.handleNavigate page s))
    = App.storage s
  ∧ App.notifications (App.handleNavigateBack (App.handleNavigate page s))
    = App.notifications s
  ∧ App.reminderAppointment (App.handleNavigateBack (App.handleNavigate page s))
    = App.reminderAppointment s.
Proof.
  unfold App.handleNavigate, App.handleNavigateBack.
  case_bool_decide as Hne; case_bool_decide as Heq; simpl; done.
Qed.

(** ** The booking wizard, further *)

Lemma NoDup_fmap_filter {A B} (f : A → B) (q : A → bool) l :
  NoDup (f <$> l) → NoDup (f <$> List.filter q l).
Proof.
  induction l as [|x l IH]; [done|]. simpl.
  rewrite NoDup_cons. intros [Hx Hl]. destruct (q x); [|by apply IH].
  simpl. apply NoDup_cons. split; [|by apply IH].
  intros Hin. apply Hx. apply list_elem_of_fmap in Hin as (y & Hy & Hin).
  apply list_elem_of_fmap. exists y. split; [done|].
  apply list_elem_of_In, List.filter_In in Hin as [Hin _].
  by apply list_elem_of_In.
Qed.

Lemma Forall_filter_keeps {A} (Q : A → Prop) (q : A → bool) l :
  Forall Q l → Forall Q (List.filter q l).
Proof.
  induction 1 as [|x l Hx _ IH]; [constructor|]. simpl.
  destruct (q x); [by constructor|done].
Qed.

Lemma TIME_SLOTS_lookup i tm : TIME_SLOTS !! i = Some tm → tm ∈ TIME_SLOTS.
Proof. intros Hi. apply list_elem_of_lookup. by exists i. Qed.

Section WizardCells.
Context {P : Platform}.
Import SchedulingPage.

Lemma toggleTherapy_catalogue th p :
  th ∈ ALL_THERAPIES →
  catalogueSelection (selectedTherapies p) →
  catalogueSelection (selectedTherapies (toggleTherapy th p)).
Proof.
  intros Hth [Hnd Hall]. unfold toggleTherapy. simpl.
  destruct (find (λ x, sameName x th) (selectedTherapies p)) as [y|] eqn:Hf.
  - split; [by apply NoDup_fmap_filter|by apply Forall_filter_keeps].
  - apply find_None_all in Hf. split.
    + rewrite fmap_app. apply NoDup_app. split; [done|]. split.
      * intros n Hn Hn'. apply list_elem_of_singleton in Hn'. subst n.
        apply list_elem_of_fmap in Hn as (y & Hy & Hin).
        rewrite Forall_forall in Hf. specialize (Hf y Hin).
        unfold sameName in Hf. apply String.eqb_neq in Hf. congruence.
      * apply NoDup_singleton.
    + apply Forall_app. split; [done|]. by constructor.
Qed.

Lemma handleFinishBooking_cells bookedAt now w :
  selectedDate (page (handleFinishBooking bookedAt now w)) = selectedDate (page w)
  ∧ selectedTime (page (handleFinishBooking bookedAt now w))
    = selectedTime (page w)
  ∧ centerRating (page (handleFinishBooking bookedAt now w))
    = centerRating (page w).
Proof.
  unfold handleFinishBooking.
  destruct (apiService.bookAppointment _ _ _) as [[[|]|] st]; done.
Qed.

Lemma handleFinishBooking_rest bookedAt now w :
  ∃ result rest,
    effects (handleFinishBooking bookedAt now w)
    = effects w
      ++ EffBookAppointment
           {| Draft.therapies := selectedTherapies (page w);
              Draft.date := selectedDate (page w);
              Draft.time := selectedTime (page w);
              Draft.bookedAt := bookedAt;
              Draft.centerRating := centerRating (page w) |} result
         :: rest
    ∧ Forall bookedComplete rest.
Proof.
  unfold handleFinishBooking.
  destruct (apiService.bookAppointment _ _ _) as [[[|]|] st]; simpl.
  - eexists _, [_]. rewrite <- app_assoc. split; [done|].
    constructor; [exact I|constructor].
  - eexists _, [_]. rewrite <- app_assoc. split; [done|].
    constructor; [exact I|constructor].
  - eexists _, []. split; [done|]. constructor.
Qed.

Lemma wizardCells_start st : wizardCells (start st).
Proof.
  unfold wizardCells. simpl.
  split; [by left|]. split; [by left|]. split.
  { intros [?|?]; discriminate. }
  split; [lia|]. split; [|constructor].
  split; [constructor|constructor].
Qed.

Lemma wizardCells_dispatch c w :
  wizardInvariant w → wizardCells w → wizardCells (dispatch c w).
Proof.
  intros (Hstep & Hshow & _) Hcells.
  pose proof Hcells as (Hdate & Htime & Hset & Hrate & Hsel & Heff).
  destruct c as [i| |i|i| | | |i|bookedAt now]; unfold dispatch.
  - destruct (ALL_THERAPIES !! i) as [th|] eqn:Hth; [|done].
    destruct (step (page w) =? 1); [|done].
    unfold wizardCells. simpl.
    split; [done|]. split; [done|]. split; [done|]. split; [done|].
    split; [|done].
    apply toggleTherapy_catalogue; [|done].
    apply list_elem_of_lookup. by exists i.
  - destruct (_ && _); [|done].
    unfold on_page, handleNextStep.
    destruct (_ && _) eqn:Hc; [|done].
    apply andb_true_iff in Hc as [H1 _]. apply Z.eqb_eq in H1.
    unfold wizardCells. simpl.
    split; [done|]. split; [done|]. split; [|done].
    intros [Hs|?]; [|done]. apply Hset. by left.
  - destruct (_ && _) eqn:Hc; [|done].
    apply andb_true_iff in Hc as [_ Hi]. apply bool_decide_eq_true in Hi.
    assert (Hcal : calendarDate (isoDateOfSeptember2025 (Z.of_nat i + 1)))
      by by exists i.
    unfold wizardCells. simpl.
    split; [by right|]. split; [done|]. split; [|done].
    intros Hpre. split; [done|]. by apply Hset.
  - destruct (TIME_SLOTS !! i) as [tm|] eqn:Htm; [|done].
    destruct (step (page w) =? 2); [|done].
    apply TIME_SLOTS_lookup in Htm.
    unfold wizardCells. simpl.
    split; [done|]. split; [by right|]. split; [|done].
    intros Hpre. split; [|done]. by apply Hset.
  - destruct (_ && _); [|done].
    unfold handleBookNow.
    destruct (truthy (Some (selectedDate (page w)))
              && truthy (Some (selectedTime (page w)))) eqn:Hc.
    + apply andb_true_iff in Hc as [Hd Ht].
      apply truthy_Some_iff in Hd. apply truthy_Some_iff in Ht.
      unfold wizardCells. simpl.
      split; [done|]. split; [done|]. split; [|done].
      intros _. split.
      * by destruct Hdate.
      * by destruct Htime.
    + unfold wizardCells. simpl.
      split; [done|]. split; [done|]. split; [done|]. split; [done|].
      split; [done|].
      apply Forall_app. split; [done|]. constructor; [exact I|constructor].
  - destruct (showConfirmation (page w)) eqn:Hs; [|done].
    unfold wizardCells. simpl.
    split; [done|]. split; [done|]. split; [|done].
    intros [?|H3]; [done|]. apply Hset. by right.
  - destruct (showConfirmation (page w)) eqn:Hs; [|done].
    unfold wizardCells. simpl.
    split; [done|]. split; [done|]. split; [|done].
    intros _. apply Hset. by left.
  - destruct (_ && _) eqn:Hc; [|done].
    apply andb_true_iff in Hc as [_ Hi]. apply bool_decide_eq_true in Hi.
    unfold wizardCells. simpl.
    split; [done|]. split; [done|]. split; [done|]. split; [lia|done].
  - destruct (_ && _) eqn:Hc; [|done].
    apply andb_true_iff in Hc as [H3 Hen]. apply Z.eqb_eq in H3.
    apply negb_true_iff, orb_false_iff in Hen as [_ Hr].
    apply Z.eqb_neq in Hr.
    destruct (handleFinishBooking_page bookedAt now w) as (Hs & Hth & Hsh).
    destruct (handleFinishBooking_cells bookedAt now w) as (Hd & Ht & Hcr).
    destruct (handleFinishBooking_rest bookedAt now w)
      as (result & rest & He & Hrest).
    destruct (Hset (or_intror H3)) as [Hcal Hslot].
    unfold wizardCells. rewrite Hs, Hth, Hsh, Hd, Ht, Hcr, He.
    split; [done|]. split; [done|]. split; [done|]. split; [done|].
    split; [done|].
    apply Forall_app. split; [done|]. constructor; [|done].
    simpl. unfold completeDraft. simpl.
    split; [done|]. split; [done|]. split; [lia|done].
Qed.
End WizardCells.

Lemma wizard_run_invariants {P : Platform} cs w :
  wizardInvariant w → wizardCells w →
  wizardInvariant (SchedulingPage.run cs w) ∧ wizardCells (SchedulingPage.run cs w).
Proof.
  revert w. induction cs as [|c cs IH]; intros w Hinv Hcells; [done|].
  simpl. apply IH.
  - by apply wizardInvariant_dispatch.
  - by apply wizardCells_dispatch.
Qed.

(** X14. Every draft the wizard hands to [bookAppointment], after any clicks
    on a freshly opened wizard, carries a date produced by the September
    calendar, one of the six time slots, a rating from 1 to 5, and therapies
    of the catalogue with no name twice. *)
Theorem booked_drafts_are_complete {P : Platform}
    (st : Storage.t) (cs : list SchedulingPage.Click) :
  Forall bookedComplete
    (SchedulingPage.effects (SchedulingPage.run cs (SchedulingPage.start st)))
  ∧ catalogueSelection
      (SchedulingPage.selectedTherapies
         (SchedulingPage.page (SchedulingPage.run cs (SchedulingPage.start st))))
  ∧ 0 ≤ SchedulingPage.centerRating
          (SchedulingPage.page (SchedulingPage.run cs (SchedulingPage.start st)))
      ≤ 5.
Proof.
  destruct (wizard_run_invariants cs _ (wizardInvariant_start st)
              (wizardCells_start st))
    as [_ (_ & _ & _ & Hrate & Hsel & Heff)].
  done.
Qed.

(** X15. The wizard only moves forward, one step at a time, and the therapy
    selection is fixed once the first step is left: after any clicks the
    step is 1, 2 or 3; a further click keeps the step or raises it by one;
    and beyond step 1 no click changes the selected therapies. *)
Theorem wizard_moves_forward {P : Platform}
    (st : Storage.t) (cs : list SchedulingPage.Click) (c : SchedulingPage.Click) :
  1 ≤ SchedulingPage.step
        (SchedulingPage.page (SchedulingPage.run cs (SchedulingPage.start st))) ≤ 3
  ∧ SchedulingPage.step
      (SchedulingPage.page (SchedulingPage.run cs (SchedulingPage.start st)))
    ≤ SchedulingPage.step
        (SchedulingPage.page
           (SchedulingPage.dispatch c
              (SchedulingPage.run cs (SchedulingPage.start st))))
    ≤ SchedulingPage.step
        (SchedulingPage.page (SchedulingPage.run cs (SchedulingPage.start st))) + 1
  ∧ (SchedulingPage.step
       (SchedulingPage.page (SchedulingPage.run cs (SchedulingPage.start st))) ≠ 1 →
     SchedulingPage.selectedTherapies
       (SchedulingPage.page
          (SchedulingPage.dispatch c
             (SchedulingPage.run cs (SchedulingPage.start st))))
     = SchedulingPage.selectedTherapies
         (SchedulingPage.page (SchedulingPage.run cs (SchedulingPage.start st)))).
Proof.
  pose proof (wizardInvariant_run cs _ (wizardInvariant_start st))
    as (Hstep & Hshow & _).
  set (w := SchedulingPage.run cs (SchedulingPage.start st)) in *.
  assert (Hrange : 1 ≤ SchedulingPage.step (SchedulingPage.page w) ≤ 3).
  { destruct Hstep as [?|[[?|?] _]]; lia. }
  split; [done|].
  destruct c as [i| |i|i| | | |i|bookedAt now]; unfold SchedulingPage.dispatch.
  - destruct (ALL_THERAPIES !! i) as [th|]; [|split; [lia|done]].
    destruct (SchedulingPage.step (SchedulingPage.page w) =? 1) eqn:H1;
      simpl; [|split; [lia|done]].
    apply Z.eqb_eq in H1. split; [lia|done].
  - destruct (_ && _); [|split; [lia|done]].
    unfold SchedulingPage.on_page, SchedulingPage.handleNextStep.
    destruct (_ && _) eqn:Hc; simpl; [|split; [lia|done]].
    apply andb_true_iff in Hc as [H1 _]. apply Z.eqb_eq in H1.
    split; [lia|done].
  - destruct (_ && _); simpl; split; (lia || done).
  - destruct (TIME_SLOTS !! i) as [tm|]; [|split; [lia|done]].
    destruct (SchedulingPage.step (SchedulingPage.page w) =? 2); simpl;
      split; (lia || done).
  - destruct (_ && _); [|split; [lia|done]].
    unfold SchedulingPage.handleBookNow. destruct (_ && _); simpl;
      split; (lia || done).
  - destruct (SchedulingPage.showConfirmation (SchedulingPage.page w)); simpl;
      split; (lia || done).
  - destruct (SchedulingPage.showConfirmation (SchedulingPage.page w)) eqn:Hs;
      simpl; [|split; [lia|done]].
    specialize (Hshow eq_refl). split; [lia|done].
  - destruct (_ && _); simpl; split; (lia || done).
  - destruct (_ && _); [|split; [lia|done]].
    destruct (handleFinishBooking_page bookedAt now w) as (Hs & Ht & _).
    rewrite Hs, Ht. split; [lia|done].
Qed.

(** While a booking is in flight no click reaches the repository. *)
Lemma dispatch_while_booking {P : Platform} c w :
  SchedulingPage.isBooking (SchedulingPage.page w) = true →
  SchedulingPage.isBooking (SchedulingPage.page (SchedulingPage.dispatch c w))
  = true
  ∧ SchedulingPage.storage (SchedulingPage.dispatch c w)
    = SchedulingPage.storage w
  ∧ SchedulingPage.effects (SchedulingPage.dispatch c w)
    = SchedulingPage.effects w.
Proof.
  intros Hb.
  destruct c as [i| |i|i| | | |i|bookedAt now]; unfold SchedulingPage.dispatch.
  - destruct (ALL_THERAPIES !! i); [|done].
    by destruct (SchedulingPage.step _ =? 1).
  - destruct (_ && _); [|done].
    unfold SchedulingPage.on_page, SchedulingPage.handleNextStep.
    by destruct (_ && _).
  - by destruct (_ && _).
  - destruct (TIME_SLOTS !! i); [|done].
    by destruct (SchedulingPage.step _ =? 2).
  - unfold SchedulingPage.handleBookNow.
    destruct (SchedulingPage.step _ =? 2); [|done].
    destruct (truthy (Some (SchedulingPage.selectedDate _)));
      destruct (truthy (Some (SchedulingPage.selectedTime _))); done.
  - by destruct (SchedulingPage.showConfirmation _).
  - by destruct (SchedulingPage.showConfirmation _).
  - by destruct (_ && _).
  - rewrite Hb. simpl. by rewrite andb_false_r.
Qed.

(** X16. A booking that throws leaves the wizard blocked. When Finish is
    clicked while the current user has no stored record or collection,
    [bookAppointment] throws, nothing is written, neither the failure alert
    nor the completion callback runs, and [isBooking] stays set: from then on
    no click, Finish included, calls the repository or writes to the
    storage. *)
Theorem thrown_booking_blocks_wizard {P : Platform}
    (w : SchedulingPage.World) (bookedAt : string) (now : Z) (m : string) :
  SchedulingPage.step (SchedulingPage.page w) = 3 →
  SchedulingPage.isBooking (SchedulingPage.page w) = false →
  SchedulingPage.centerRating (SchedulingPage.page w) ≠ 0 →
  apiService.getCurrentUserMobileNumber (SchedulingPage.storage w) = Some m →
  m ≠ "" →
  (Storage.users (SchedulingPage.storage w) !! m) ≫= User.appointments = None →
  SchedulingPage.isBooking
    (SchedulingPage.page
       (SchedulingPage.dispatch (SchedulingPage.FinishButton bookedAt now) w))
  = true
  ∧ SchedulingPage.effects
      (SchedulingPage.dispatch (SchedulingPage.FinishButton bookedAt now) w)
    = SchedulingPage.effects w
      ++ [SchedulingPage.EffBookAppointment
            {| Draft.therapies :=
                 SchedulingPage.selectedTherapies (SchedulingPage.page w);
               Draft.date := SchedulingPage.selectedDate (SchedulingPage.page w);
               Draft.time := SchedulingPage.selectedTime (SchedulingPage.page w);
               Draft.bookedAt := bookedAt;
               Draft.centerRating :=
                 SchedulingPage.centerRating (SchedulingPage.page w) |}
            Throw]
  ∧ ∀ cs,
      SchedulingPage.isBooking
        (SchedulingPage.page
           (SchedulingPage.run cs
              (SchedulingPage.dispatch
                 (SchedulingPage.FinishButton bookedAt now) w))) = true
      ∧ SchedulingPage.storage
          (SchedulingPage.run cs
             (SchedulingPage.dispatch
                (SchedulingPage.FinishButton bookedAt now) w))
        = SchedulingPage.storage w
      ∧ SchedulingPage.effects
          (SchedulingPage.run cs
             (SchedulingPage.dispatch
                (SchedulingPage.FinishButton bookedAt now) w))
        = SchedulingPage.effects
            (SchedulingPage.dispatch
               (SchedulingPage.FinishButton bookedAt now) w).
Proof.
  intros H3 Hb Hr Hm Hne Hrec.
  set (d := {| Draft.therapies :=
                 SchedulingPage.selectedTherapies (SchedulingPage.page w);
               Draft.date := SchedulingPage.selectedDate (SchedulingPage.page w);
               Draft.time := SchedulingPage.selectedTime (SchedulingPage.page w);
               Draft.bookedAt := bookedAt;
               Draft.centerRating :=
                 SchedulingPage.centerRating (SchedulingPage.page w) |}).
  assert (Hthrow : apiService.bookAppointment d now (SchedulingPage.storage w)
                   = (Throw, SchedulingPage.storage w)).
  { unfold apiService.bookAppointment.
    rewrite Hm, (proj2 (truthy_Some_iff m) Hne). simpl.
    destruct (Storage.users (SchedulingPage.storage w) !! m) as [u|]; [|done].
    simpl in Hrec. by rewrite Hrec. }
  assert (Hfin :
    SchedulingPage.dispatch (SchedulingPage.FinishButton bookedAt now) w
    = SchedulingPage.effect (SchedulingPage.EffBookAppointment d Throw)
        (SchedulingPage.with_storage (SchedulingPage.storage w)
           (SchedulingPage.on_page (SchedulingPage.setIsBooking true) w))).
  { unfold SchedulingPage.dispatch. rewrite H3, Hb. simpl.
    destruct (SchedulingPage.centerRating (SchedulingPage.page w) =? 0) eqn:H0;
      [by apply Z.eqb_eq in H0|]. simpl.
    unfold SchedulingPage.handleFinishBooking. simpl. fold d.
    by rewrite Hthrow. }
  rewrite Hfin. split; [done|]. split; [done|].
  intros cs.
  set (w' := SchedulingPage.effect _ _).
  assert (Hgen : ∀ w1,
    SchedulingPage.isBooking (SchedulingPage.page w1) = true →
    SchedulingPage.isBooking (SchedulingPage.page (SchedulingPage.run cs w1)) = true
    ∧ SchedulingPage.storage (SchedulingPage.run cs w1) = SchedulingPage.storage w1
    ∧ SchedulingPage.effects (SchedulingPage.run cs w1) = SchedulingPage.effects w1).
  { induction cs as [|c cs IH]; intros w1 Hb1; [done|]. simpl.
    destruct (dispatch_while_booking c w1 Hb1) as (Hb2 & Hs2 & He2).
    destruct (IH _ Hb2) as (? & ? & ?). split; [done|].
    split; congruence. }
  destruct (Hgen w' eq_refl) as (Hb' & Hs' & He').
  split; [done|]. split; [|done]. by rewrite Hs'.
Qed.

(** The wizard is at the rating step while the session's user has no
    record. *)
Lemma thrown_booking_blocks_wizard_witness :
  SchedulingPage.step
    (SchedulingPage.page
       (SchedulingPage.run (P := UTC.platform) Scenario.clicksToRating
          (SchedulingPage.start Scenario.orphanSession))) = 3
  ∧ SchedulingPage.isBooking
      (SchedulingPage.page
         (SchedulingPage.dispatch (P := UTC.platform)
            (SchedulingPage.FinishButton "2025-09-15T00:00:00.000Z" Sample.now)
            (SchedulingPage.run (P := UTC.platform) Scenario.clicksToRating
               (SchedulingPage.start Scenario.orphanSession)))) = true
  ∧ ∀ cs,
      SchedulingPage.storage
        (SchedulingPage.run (P := UTC.platform) cs
           (SchedulingPage.dispatch (P := UTC.platform)
              (SchedulingPage.FinishButton "2025-09-15T00:00:00.000Z" Sample.now)
              (SchedulingPage.run (P := UTC.platform) Scenario.clicksToRating
                 (SchedulingPage.start Scenario.orphanSession))))
      = Scenario.orphanSession.
Proof.
  destruct (thrown_booking_blocks_wizard (P := UTC.platform)
              (SchedulingPage.run (P := UTC.platform) Scenario.clicksToRating
                 (SchedulingPage.start Scenario.orphanSession))
              "2025-09-15T00:00:00.000Z" Sample.now "1234567890")
    as (Hb & _ & Hrun);
    [reflexivity|reflexivity|discriminate|reflexivity|discriminate|reflexivity|].
  split; [reflexivity|]. split; [exact Hb|].
  intros cs. by destruct (Hrun cs) as (_ & Hst & _).
Defined.

(** ** The account form *)

(** X17. The validation of the account form. When some field is blank
    after trimming, [handleCreateAccount] writes nothing and creates no
    account, and the error names the first blank field in form order, every
    field before it being filled. When no field is blank the outcome is that
    of [createAccount] on the form data. So the storage changes only for a
    form with all nine fields filled. *)
Theorem account_form_validation
    (trim : string → string) (p : CreateAccountPage.t) (st : Storage.t) :
  (Exists (λ kv, trim kv.2 = "")
     (CreateAccountPage.entries (CreateAccountPage.formData p)) →
   ∃ before key value after,
     CreateAccountPage.entries (CreateAccountPage.formData p)
     = before ++ (key, value) :: after
     ∧ Forall (λ kv, trim kv.2 ≠ "") before
     ∧ trim value = ""
     ∧ CreateAccountPage.error
         (CreateAccountPage.page (CreateAccountPage.handleCreateAccount trim p st))
       = String.append "Please fill out the " (String.append key " field.")
     ∧ CreateAccountPage.storage (CreateAccountPage.handleCreateAccount trim p st)
       = st
     ∧ CreateAccountPage.created (CreateAccountPage.handleCreateAccount trim p st)
       = None)
  ∧ (Forall (λ kv, trim kv.2 ≠ "")
       (CreateAccountPage.entries (CreateAccountPage.formData p)) →
     CreateAccountPage.storage (CreateAccountPage.handleCreateAccount trim p st)
     = (apiService.createAccount (CreateAccountPage.formData p) st).2
     ∧ CreateAccountPage.created (CreateAccountPage.handleCreateAccount trim p st)
       = (apiService.createAccount (CreateAccountPage.formData p) st).1
     ∧ CreateAccountPage.isLoading
         (CreateAccountPage.page (CreateAccountPage.handleCreateAccount trim p st))
       = false)
  ∧ (CreateAccountPage.storage (CreateAccountPage.handleCreateAccount trim p st)
     = st
     ∨ Forall (λ kv, trim kv.2 ≠ "")
         (CreateAccountPage.entries (CreateAccountPage.formData p))).
Proof.
  unfold CreateAccountPage.handleCreateAccount, CreateAccountPage.firstBlank.
  destruct (find (λ kv, String.eqb (trim kv.2) "")
              (CreateAccountPage.entries (CreateAccountPage.formData p)))
    as [[key value]|] eqn:Hfind; simpl.
  - apply find_Some_first in Hfind as (Hblank & before & after & Hsplit & Hbefore).
    simpl in Hblank. apply String.eqb_eq in Hblank.
    split; [|split; [|by left]].
    + intros _. exists before, key, value, after.
      split; [done|]. split; [|done].
      eapply Forall_impl; [exact Hbefore|].
      intros kv Hkv. by apply String.eqb_neq.
    + intros Hall. rewrite Hsplit in Hall.
      apply Forall_app in Hall as [_ Hall].
      apply Forall_cons in Hall as [Hne _]. done.
  - apply find_None_all in Hfind.
    assert (Hall : Forall (λ kv, trim kv.2 ≠ "")
              (CreateAccountPage.entries (CreateAccountPage.formData p))).
    { eapply Forall_impl; [exact Hfind|].
      intros kv Hkv. by apply String.eqb_neq. }
    split; [|split; [|by right]].
    + intros Hex. apply Exists_exists in Hex as (kv & Hin & Hkv).
      rewrite Forall_forall in Hall. by destruct (Hall kv Hin).
    + intros _.
      by destruct (apiService.createAccount _ _) as [[user|] st'].
Qed.

(** A form whose email holds blanks only and whose password is empty: the
    error names the email, the earlier of the two. *)
Example account_form_blank_email :
  CreateAccountPage.handleCreateAccount Scenario.trim Scenario.formPage
    (Sample.storage [] [])
  = {| CreateAccountPage.page :=
         {| CreateAccountPage.formData := Scenario.form;
            CreateAccountPage.error := "Please fill out the email field.";
            CreateAccountPage.isLoading := false |};
       CreateAccountPage.storage := Sample.storage [] [];
       CreateAccountPage.created := None |}.
Proof. vm_compute. reflexivity. Qed.

(** ** The calendar *)

Section CalendarFacts.
Context {P : Platform}.
Variable toDateString : option Z → string.

Lemma addToDate_fold apps acc k :
  (∀ j, acc !! j ≠ Some []) →
  fold_left (CalendarView.addToDate toDateString) apps acc !! k
  = match default [] (acc !! k)
          ++ List.filter
               (λ a, String.eqb (CalendarView.dateKey toDateString a) k) apps
    with
    | [] => None
    | l => Some l
    end.
Proof.
  revert acc. induction apps as [|a apps IH]; intros acc Hacc.
  - simpl. rewrite app_nil_r. destruct (acc !! k) as [[|x l]|] eqn:Hk; simpl;
      [by destruct (Hacc k)|done|done].
  - simpl. rewrite IH.
    + unfold CalendarView.addToDate at 1.
      destruct (String.eqb_spec (CalendarView.dateKey toDateString a) k)
        as [->|Hne].
      * rewrite lookup_insert_eq. simpl. by rewrite <- app_assoc.
      * by rewrite lookup_insert_ne.
    + intros j. unfold CalendarView.addToDate.
      destruct (decide (CalendarView.dateKey toDateString a = j)) as [->|Hne].
      * rewrite lookup_insert_eq. intros [= Heq].
        by destruct (default [] _).
      * rewrite lookup_insert_ne by done. apply Hacc.
Qed.
End CalendarFacts.

(** X18. The calendar groups the appointments by day without losing or
    reordering any: under a day's key stand exactly the appointments whose
    date reads as that day, in list order, and a day with none has no
    entry; so the list shown for a selected day is that filter of the
    appointments, and empty when no day is selected. *)
Theorem calendar_groups_by_day {P : Platform}
    (toDateString : option Z → string) (appointments : list Appointment.t)
    (k : string) (d : option Z) :
  CalendarView.appointmentsByDate toDateString appointments !! k
  = match List.filter
            (λ a, String.eqb (CalendarView.dateKey toDateString a) k)
            appointments
    with
    | [] => None
    | l => Some l
    end
  ∧ CalendarView.selectedAppointments toDateString appointments (Some d)
    = List.filter
        (λ a, String.eqb (CalendarView.dateKey toDateString a) (toDateString d))
        appointments
  ∧ CalendarView.selectedAppointments toDateString appointments None = [].
Proof.
  assert (Hgroup : ∀ j,
    CalendarView.appointmentsByDate toDateString appointments !! j
    = match List.filter
              (λ a, String.eqb (CalendarView.dateKey toDateString a) j)
              appointments
      with
      | [] => None
      | l => Some l
      end).
  { intros j. unfold CalendarView.appointmentsByDate.
    rewrite addToDate_fold; [by rewrite lookup_empty|].
    intros i. by rewrite lookup_empty. }
  split; [apply Hgroup|]. split; [|done].
  unfold CalendarView.selectedAppointments. rewrite Hgroup.
  by destruct (List.filter _ _).
Qed.

(** Three appointments on two days, keyed by the day count of the date. *)
Example calendar_two_days :
  CalendarView.selectedAppointments (P := UTC.platform)
    (λ d, match d with
          | Some t => number_to_string (t / 86400000)
          | None => "Invalid Date"
          end)
    [Sample.appointment 1 Sample.tomorrow (Some upcoming);
     Sample.appointment 2 Sample.yesterday (Some confirmed);
     Sample.appointment 3 Sample.tomorrow (Some completed)]
    (Some (Some (Sample.now + 86400000)))
  = [Sample.appointment 1 Sample.tomorrow (Some upcoming);
     Sample.appointment 3 Sample.tomorrow (Some completed)].
Proof. vm_compute. reflexivity. Qed.
